(** * AcroChem: the stock ledger and costing engine of [logic.py]

    A shallow embedding of the functions of [src/logic.py] as the module
    has them once Python has loaded it, together with the properties
    stated for them.

    Conventions of the model.
    - SQLite [REAL] columns and Python floats are exact rationals ([Q]);
      equality of quantities is [Qeq] ([==]).  The rounding of binary
      floating point is outside the model.
    - The database is a record of tables; a table is the list of its rows
      in insertion order.  A function is a map from a database to an
      outcome and a database; a statement that raises writes nothing, and
      an exception inside a [with conn] block rolls the block back.
    - Names are resolved as the loaded module resolves them.  Of two
      definitions of a function the later one is the one called.  The name
      [datetime] is the module ([import datetime], line 905, comes after
      the two [from datetime import datetime]).  The name [get_conn] is
      [db.get_conn] ([from db import get_conn], line 630), which switches
      foreign keys on; a function that opens the file with
      [sqlite3.connect] runs with foreign keys off.
    - The arguments called [now] and [today] are what the clock would
      answer.
    - The tables have the columns and the foreign keys that [init_db] of
      [logic.py] creates, so the check of [_require_stock_ledger_schema]
      passes; every connection opens the same database file.
    - Text is ASCII. *)

From Stdlib Require Import QArith Qabs Qround ZArith List String Ascii Bool Lia Lqa.
Import ListNotations.

Local Open Scope string_scope.
Local Open Scope Q_scope.

(** ** Outcomes *)

(** The exceptions the modelled functions raise. *)
Inductive exn : Type :=
| ValueError (msg : string)
| AttributeError (msg : string)
| IntegrityError (msg : string).

Inductive result (A : Type) : Type :=
| Ok (a : A)
| Raise (e : exn).

Arguments Ok {A} a.
Arguments Raise {A} e.

(** ** Tables *)

Module Materials.
Record row : Type := mk {
  material_code : string;
  material_name : string;
  category : string;
  stock_uom : string;
  issue_uom : string;
  issue_to_stock_factor : Q;
  std_wastage_pct : Q;
  is_critical : Z;
  active : Z;
  notes : option string
}.
End Materials.

Module Formulas.
Record row : Type := mk {
  id : Z;
  product_code : string;
  material_code : string;
  qty : Q;
  uom : string
}.
End Formulas.

Module StockLedger.
Record row : Type := mk {
  id : Z;
  date : string;
  ref_type : string;
  ref_no : option string;
  material_code : string;
  qty : Q;
  uom : string;
  qty_stock : Q;
  cost_per_stock : Q;
  total_cost : Q;
  note : option string
}.
End StockLedger.

Module Stocktake.
Record row : Type := mk {
  id : Z;
  date : string;
  material_code : string;
  counted_qty_stock : Q;
  system_qty_stock : Q;
  variance : Q;
  note : option string
}.
End Stocktake.

Record DB : Type := mkDB {
  materials : list Materials.row;
  formulas : list Formulas.row;
  stock_ledger : list StockLedger.row;
  stocktake : list Stocktake.row
}.

Definition set_stock_ledger (db : DB) (l : list StockLedger.row) : DB :=
  mkDB (materials db) (formulas db) l (stocktake db).

Definition set_stocktake (db : DB) (l : list Stocktake.row) : DB :=
  mkDB (materials db) (formulas db) (stock_ledger db) l.

Definition set_materials (db : DB) (l : list Materials.row) : DB :=
  mkDB l (formulas db) (stock_ledger db) (stocktake db).

(** ** SQL fragments *)

(** [SUM] over the selected values: [NULL] on no rows. *)
Definition SUM (xs : list Q) : option Q :=
  match xs with
  | [] => None
  | x :: rest => Some (fold_left Qplus rest x)
  end.

Definition COALESCE {A : Type} (v : option A) (default : A) : A :=
  match v with
  | Some a => a
  | None => default
  end.

(** [INTEGER PRIMARY KEY AUTOINCREMENT]: one more than the largest key. *)
Definition next_id (ids : list Z) : Z :=
  (1 + fold_right Z.max 0 ids)%Z.

(** [WHERE material_code = ?] on the ledger. *)
Definition ledger_of (db : DB) (material_code : string) : list StockLedger.row :=
  filter (fun r => String.eqb (StockLedger.material_code r) material_code)
         (stock_ledger db).

(** [x > y] and [x < y] on numbers. *)
Definition Qgtb (x y : Q) : bool := negb (Qle_bool x y).
Definition Qltb (x y : Q) : bool := negb (Qle_bool y x).

(** ** Names of the module *)

(** What the name [datetime] can stand for, and what it stands for when
    the functions are called. *)
Inductive datetime_binding : Type :=
| datetime_class
| datetime_module.

Definition datetime : datetime_binding := datetime_module.

(** [datetime.now()] *)
Definition datetime_now (clock : string) : result string :=
  match datetime with
  | datetime_class => Ok clock
  | datetime_module =>
      Raise (AttributeError "module 'datetime' has no attribute 'now'")
  end.

(** [datetime.date.today()] *)
Definition datetime_date_today (clock : string) : result string :=
  match datetime with
  | datetime_class =>
      Raise (AttributeError
               "'method_descriptor' object has no attribute 'today'")
  | datetime_module => Ok clock
  end.

(** [FOREIGN KEY(material_code) REFERENCES materials(material_code)],
    enforced on the connections of [get_conn]. *)
Definition has_material (db : DB) (material_code : string) : bool :=
  existsb (fun m => String.eqb (Materials.material_code m) material_code)
          (materials db).

Definition foreign_key_failed : exn :=
  IntegrityError "FOREIGN KEY constraint failed".

(** ** Stock engine *)

Definition _current_stock (db : DB) (material_code : string) : Q * Q :=
  let rows := ledger_of db material_code in
  let qty := COALESCE (SUM (map StockLedger.qty_stock rows)) 0 in
  let cost := COALESCE (SUM (map StockLedger.total_cost rows)) 0 in
  let avg_cost := if negb (Qeq_bool qty 0) then cost / qty else 0 in
  (qty, avg_cost).

Definition post_stock (now : string) (material_code : string) (qty : Q)
    (uom : string) (cost_per_stock : Q) (ref_type : string)
    (ref_no : option string) (note : string) (db : DB) : result unit * DB :=
  match datetime_now now with
  | Raise e => (Raise e, db)
  | Ok date =>
      let qty_stock := qty in
      let total_cost := qty_stock * cost_per_stock in
      if has_material db material_code then
        (Ok tt,
         set_stock_ledger db
           (stock_ledger db ++
            [StockLedger.mk (next_id (map StockLedger.id (stock_ledger db)))
               date ref_type ref_no material_code qty uom
               qty_stock cost_per_stock total_cost (Some note)]))
      else (Raise foreign_key_failed, db)
  end.

Definition receive_purchase (now : string) (material_code : string)
    (qty_stock total_cost : Q) (ref_no : option string) (db : DB)
    : result unit * DB :=
  let cost_per_stock :=
    if negb (Qeq_bool qty_stock 0) then total_cost / qty_stock else 0 in
  post_stock now material_code qty_stock "STOCK" cost_per_stock
             "PURCHASE" ref_no "" db.

Definition issue_stock (now : string) (material_code : string) (qty_stock : Q)
    (ref_type : string) (ref_no : option string) (db : DB)
    : result unit * DB :=
  let '(current_qty, avg_cost) := _current_stock db material_code in
  if Qgtb qty_stock current_qty then
    (Raise (ValueError "Insufficient stock"), db)
  else
    post_stock now material_code (- qty_stock) "STOCK" avg_cost
               ref_type ref_no "" db.

(** [GROUP BY material_code]: the codes that occur, each once. *)
Fixpoint distinct (codes : list string) : list string :=
  match codes with
  | [] => []
  | c :: rest => c :: filter (fun c' => negb (String.eqb c' c)) (distinct rest)
  end.

(** [stock_on_hand]: one row per material of the ledger,
    [(material_code, qty_stock, total_cost, avg_cost)]; a column is
    [None] where SQL gives [NULL]. *)
Definition stock_on_hand (db : DB)
    : list (string * option Q * option Q * option Q) :=
  map (fun code =>
         let rows := ledger_of db code in
         let qty_stock := SUM (map StockLedger.qty_stock rows) in
         let total_cost := SUM (map StockLedger.total_cost rows) in
         let avg_cost :=
           match qty_stock with
           | Some q =>
               if negb (Qeq_bool q 0)
               then option_map (fun c => c / q) total_cost
               else Some 0
           | None => Some 0
           end in
         (code, qty_stock, total_cost, avg_cost))
      (distinct (map StockLedger.material_code (stock_ledger db))).

(** ** Stocktake *)

Definition post_stocktake (now now_post : string) (material_code : string)
    (counted_qty_stock : Q) (note : string) (db : DB) : result unit * DB :=
  let '(system_qty, avg_cost) := _current_stock db material_code in
  let variance := counted_qty_stock - system_qty in
  match datetime_now now with
  | Raise e => (Raise e, db)
  | Ok date =>
      let db1 :=
        set_stocktake db
          (stocktake db ++
           [Stocktake.mk (next_id (map Stocktake.id (stocktake db)))
              date material_code counted_qty_stock system_qty variance
              (Some note)]) in
      if negb (Qeq_bool variance 0) then
        post_stock now_post material_code variance "STOCK" avg_cost
                   "STOCKTAKE" None "Stocktake adjustment" db1
      else (Ok tt, db1)
  end.

(** ** Materials *)

(** The module defines [delete_material] twice.  The first definition
    (with the reference checks) is kept here under [Guarded]; the second
    one, further down the file, is the one the name is bound to once the
    module is loaded. *)
Module Guarded.
Definition delete_material (material_code : string) (db : DB)
    : result unit * DB :=
  if (0 <? Z.of_nat (List.length (ledger_of db material_code)))%Z then
    (Raise (ValueError "Material has stock movements and cannot be deleted"),
     db)
  else if (0 <? Z.of_nat (List.length
             (filter (fun f => String.eqb (Formulas.material_code f)
                                          material_code)
                     (formulas db))))%Z then
    (Raise (ValueError "Material used in formulas and cannot be deleted"),
     db)
  else
    (Ok tt,
     set_materials db
       (filter (fun m => negb (String.eqb (Materials.material_code m)
                                          material_code))
               (materials db))).
End Guarded.

Definition delete_material (material_code : string) (db : DB) : DB :=
  set_materials db
    (filter (fun m => negb (String.eqb (Materials.material_code m)
                                       material_code))
            (materials db)).

(** ** Stock on hand (view) and manual adjustments *)

(** [str.strip()] on ASCII text. *)
Definition is_space (c : ascii) : bool :=
  let n := nat_of_ascii c in
  ((9 <=? n) && (n <=? 13) || (28 <=? n) && (n <=? 32))%nat.

Fixpoint lstrip (s : string) : string :=
  match s with
  | EmptyString => EmptyString
  | String c rest => if is_space c then lstrip rest else s
  end.

Fixpoint rstrip (s : string) : string :=
  match s with
  | EmptyString => EmptyString
  | String c rest =>
      match rstrip rest with
      | EmptyString => if is_space c then EmptyString else String c EmptyString
      | kept => String c kept
      end
  end.

Definition strip (s : string) : string := rstrip (lstrip s).

(** [MAX(id)] over the selected rows. *)
Definition MAX (xs : list Z) : option Z :=
  match xs with
  | [] => None
  | x :: rest => Some (fold_left Z.max rest x)
  end.

(** [ORDER BY id DESC LIMIT 1]. *)
Definition latest_row (rows : list StockLedger.row) : option StockLedger.row :=
  fold_left
    (fun best r =>
       match best with
       | None => Some r
       | Some b => if (StockLedger.id b <? StockLedger.id r)%Z
                   then Some r else Some b
       end)
    rows None.

(** Rounding to [d] decimals: pandas rounds half to even, SQLite's
    [ROUND] rounds half away from zero. *)
Definition pow10 (d : nat) : Q := inject_Z (10 ^ Z.of_nat d).

Definition rint (x : Q) : Z :=
  let f := Qfloor x in
  let frac := x - inject_Z f in
  if Qltb frac (1 # 2) then f
  else if Qltb (1 # 2) frac then (f + 1)%Z
  else if Z.even f then f else (f + 1)%Z.

Definition round (x : Q) (d : nat) : Q :=
  inject_Z (rint (x * pow10 d)) / pow10 d.

Definition ROUND (x : Q) (d : nat) : Q :=
  if Qltb x 0
  then - (inject_Z (Qfloor (- x * pow10 d + (1 # 2))) / pow10 d)
  else inject_Z (Qfloor (x * pow10 d + (1 # 2))) / pow10 d.

Module StockView.
Record row : Type := mk {
  code : string;
  name : string;
  uom : string;
  qty_on_hand : Q;
  avg_cost : Q;
  stock_value : Q
}.
End StockView.

(** [get_stock_on_hand] as the module binds it (its second definition),
    called with the default [search = ""]; the order of the rows
    ([ORDER BY name]) is not tracked. *)
Definition get_stock_on_hand (db : DB) : list StockView.row :=
  let latest :=
    map (fun code => (code, MAX (map StockLedger.id (ledger_of db code))))
        (distinct (map StockLedger.material_code (stock_ledger db))) in
  flat_map
    (fun x : string * option Z =>
       flat_map
         (fun l =>
            let ms :=
              filter (fun m => String.eqb (Materials.material_code m)
                                          (StockLedger.material_code l))
                     (materials db) in
            let joined :=
              match ms with
              | [] => [None]
              | _ => map Some ms
              end in
            flat_map
              (fun m : option Materials.row =>
                 if Qgtb (Qabs (StockLedger.qty_stock l)) (1 # 100000) then
                   [StockView.mk
                      (StockLedger.material_code l)
                      (COALESCE (option_map Materials.material_name m)
                                (StockLedger.material_code l))
                      (COALESCE (option_map Materials.stock_uom m)
                                (StockLedger.uom l))
                      (round (StockLedger.qty_stock l) 4)
                      (round (StockLedger.cost_per_stock l) 6)
                      (ROUND (StockLedger.qty_stock l
                              * StockLedger.cost_per_stock l) 2)]
                 else [])
              joined)
         (filter (fun l => match snd x with
                           | Some max_id => (StockLedger.id l =? max_id)%Z
                           | None => false
                           end)
                 (stock_ledger db)))
    latest.

Definition post_stock_adjustment (today : string) (code : string)
    (qty_delta : Q) (uom : string) (cost_per_uom : Q) (note : string)
    (ref_type : string) (ref_no : string) (db : DB) : result unit * DB :=
  let code := strip code in
  if String.eqb code "" then
    (Raise (ValueError "code is required."), db)
  else if Qltb (Qabs qty_delta) (1 # 10000000) then
    (Raise (ValueError "qty_delta cannot be zero."), db)
  else
    let row := latest_row (ledger_of db code) in
    let prev_qty := match row with
                    | Some r => StockLedger.qty_stock r
                    | None => 0
                    end in
    let prev_cost := match row with
                     | Some r => StockLedger.cost_per_stock r
                     | None => 0
                     end in
    let new_qty := prev_qty + qty_delta in
    let '(move_cost, new_cost) :=
      if Qgtb qty_delta 0 then
        let add_cost := cost_per_uom in
        let move_cost := qty_delta * add_cost in
        if Qltb (Qabs new_qty) (1 # 100000) then (move_cost, 0)
        else (move_cost,
              ((prev_qty * prev_cost) + (qty_delta * add_cost)) / new_qty)
      else
        let move_cost := qty_delta * prev_cost in
        if Qltb (Qabs new_qty) (1 # 100000) then (move_cost, 0)
        else (move_cost, prev_cost) in
    match datetime_date_today today with
    | Raise e => (Raise e, db)
    | Ok today =>
        if has_material db code then
          (Ok tt,
           set_stock_ledger db
             (stock_ledger db ++
              [StockLedger.mk (next_id (map StockLedger.id (stock_ledger db)))
                 today ref_type (Some ref_no) code qty_delta uom
                 new_qty new_cost move_cost (Some note)]))
        else (Raise foreign_key_failed, db)
    end.

Definition integrity_check_stock (db : DB) : list StockView.row :=
  filter (fun r => Qltb (StockView.qty_on_hand r) (- (1 # 100000)))
         (get_stock_on_hand db).

(** ** Materials master *)

(** [INSERT ... ON CONFLICT(material_code) DO UPDATE SET ...]: the row
    with the code takes the new values where it stands, a new code goes to
    the end of the table. *)
Fixpoint upsert_row (row : Materials.row) (table : list Materials.row)
    : list Materials.row :=
  match table with
  | [] => [row]
  | m :: rest =>
      if String.eqb (Materials.material_code m) (Materials.material_code row)
      then row :: rest
      else m :: upsert_row row rest
  end.

Definition upsert_material (row : Materials.row) (db : DB) : DB :=
  set_materials db (upsert_row row (materials db)).

(** ** Formulas *)

(** The formulas table with its [sqlite_sequence] entry: an
    [AUTOINCREMENT] key is never given out twice. *)
Record FormulaStore : Type := mkFormulaStore {
  formula_rows : list Formulas.row;
  formula_seq : Z
}.

(** [INSERT INTO formulas ...]: the product and the material must be in
    their tables ([product_codes], [material_codes]: the codes there). *)
Definition insert_formula (product_codes material_codes : list string)
    (product_code material_code : string) (qty : Q) (uom : string)
    (s : FormulaStore) : result unit * FormulaStore :=
  if existsb (String.eqb product_code) product_codes
     && existsb (String.eqb material_code) material_codes then
    let id := (1 + Z.max (fold_right Z.max 0
                            (map Formulas.id (formula_rows s)))
                         (formula_seq s))%Z in
    (Ok tt,
     mkFormulaStore
       (formula_rows s ++ [Formulas.mk id product_code material_code qty uom])
       id)
  else (Raise foreign_key_failed, s).

(** [add_formula_line] as the module binds it (its second definition). *)
Definition add_formula_line (product_codes material_codes : list string)
    (product_code material_code : string) (qty : Q) (uom : string)
    (s : FormulaStore) : result unit * FormulaStore :=
  if (0 <? Z.of_nat (List.length
             (filter (fun f => String.eqb (Formulas.product_code f) product_code
                               && String.eqb (Formulas.material_code f)
                                             material_code)
                     (formula_rows s))))%Z then
    (Raise (ValueError "Material already exists in this formula"), s)
  else
    match insert_formula product_codes material_codes
            product_code material_code qty uom s with
    | (Ok _, s') => (Ok tt, s')
    | (Raise e, _) => (Raise e, s)
    end.

(** [delete_formula_line] as the module binds it (by [id]). *)
Definition delete_formula_line (formula_id : Z) (s : FormulaStore)
    : FormulaStore :=
  mkFormulaStore
    (filter (fun f => negb (Formulas.id f =? formula_id)%Z) (formula_rows s))
    (formula_seq s).

(** A row of the argument of [set_formula]. *)
Record formula_input : Type := mkFormulaInput {
  i_material_code : string;
  i_qty : Q;
  i_uom : string
}.

(** The inserts of [set_formula], up to the first one that raises. *)
Fixpoint insert_formulas (product_codes material_codes : list string)
    (product_code : string) (rows : list formula_input) (s : FormulaStore)
    : result unit * FormulaStore :=
  match rows with
  | [] => (Ok tt, s)
  | r :: rest =>
      match insert_formula product_codes material_codes product_code
              (i_material_code r) (i_qty r) (i_uom r) s with
      | (Ok _, s') =>
          insert_formulas product_codes material_codes product_code rest s'
      | (Raise e, s') => (Raise e, s')
      end
  end.

(** [set_formula]: the delete and the inserts are one transaction. *)
Definition set_formula (product_codes material_codes : list string)
    (product_code : string) (rows : list formula_input) (s : FormulaStore)
    : result unit * FormulaStore :=
  match insert_formulas product_codes material_codes product_code rows
          (mkFormulaStore
             (filter (fun f => negb (String.eqb (Formulas.product_code f)
                                                product_code))
                     (formula_rows s))
             (formula_seq s)) with
  | (Ok _, s') => (Ok tt, s')
  | (Raise e, _) => (Raise e, s)
  end.

Definition calculate_batch_cost (product_code : string) (batch_size : Q)
    (db : DB) : Q :=
  fold_left
    (fun total_cost row =>
       let qty_needed := Formulas.qty row * batch_size in
       let avg_cost := snd (_current_stock db (Formulas.material_code row)) in
       total_cost + qty_needed * avg_cost)
    (filter (fun f => String.eqb (Formulas.product_code f) product_code)
            (formulas db))
    0.

(** ** Balances and sequences of calls *)

(** The balance in the words of the specification: the entries of the
    material folded in entry order. *)
Definition entries_total (column : StockLedger.row -> Q) (material_code : string)
    (ledger : list StockLedger.row) : Q :=
  fold_left
    (fun acc r =>
       if String.eqb (StockLedger.material_code r) material_code
       then acc + column r else acc)
    ledger 0.

Definition balance_quantity (db : DB) (material_code : string) : Q :=
  entries_total StockLedger.qty_stock material_code (stock_ledger db).

Definition balance_cost (db : DB) (material_code : string) : Q :=
  entries_total StockLedger.total_cost material_code (stock_ledger db).

Definition on_hand (db : DB) (material_code : string) : Q :=
  fst (_current_stock db material_code).

Definition average_cost (db : DB) (material_code : string) : Q :=
  snd (_current_stock db material_code).

(** Calls of the planned operations (no manual adjustment). *)
Inductive call : Type :=
| Receive (now material_code : string) (qty_stock total_cost : Q)
          (ref_no : option string)
| Issue (now material_code : string) (qty_stock : Q) (ref_type : string)
        (ref_no : option string).

Definition run_call (c : call) (db : DB) : result unit * DB :=
  match c with
  | Receive now m q tc rn => receive_purchase now m q tc rn db
  | Issue now m q rt rn => issue_stock now m q rt rn db
  end.

(** A caller that goes on after a failed call. *)
Definition run (cs : list call) (db : DB) : DB :=
  fold_left (fun d c => snd (run_call c d)) cs db.

(** The balance [post_stock_adjustment] starts from: the [qty_stock] and
    [cost_per_stock] of the latest ledger row of the material, or 0 and 0. *)
Definition prev_qty (db : DB) (code : string) : Q :=
  match latest_row (ledger_of db code) with
  | Some r => StockLedger.qty_stock r
  | None => 0
  end.

Definition prev_cost (db : DB) (code : string) : Q :=
  match latest_row (ledger_of db code) with
  | Some r => StockLedger.cost_per_stock r
  | None => 0
  end.

(** One call of [post_stock_adjustment]. *)
Record adjustment : Type := mkAdjustment {
  a_today : string;
  a_code : string;
  a_qty_delta : Q;
  a_uom : string;
  a_cost_per_uom : Q;
  a_note : string;
  a_ref_type : string;
  a_ref_no : string
}.

Definition adjust (a : adjustment) (db : DB) : result unit * DB :=
  post_stock_adjustment (a_today a) (a_code a) (a_qty_delta a) (a_uom a)
    (a_cost_per_uom a) (a_note a) (a_ref_type a) (a_ref_no a) db.

Definition adjust_all (adjs : list adjustment) (db : DB) : DB :=
  fold_left (fun d a => snd (adjust a d)) adjs db.

(** The movements of a material: the sum of its [qty] column. *)
Definition moved_quantity (db : DB) (material_code : string) : Q :=
  entries_total StockLedger.qty material_code (stock_ledger db).

Definition sumQ (xs : list Q) : Q := fold_right Qplus 0 xs.

(** A catalogue with one material and one formula line, and no movement. *)
Definition sample_material (code name : string) : Materials.row :=
  Materials.mk code name "Pigment" "kg" "kg" 1 0 0%Z 1%Z None.

Definition catalogue : DB :=
  mkDB [sample_material "PIG-RED" "Red pigment"]
       [Formulas.mk 1 "PAINT-1" "PIG-RED" 2 "kg"] [] [].

(** The balance before an adjustment in the words of the policy: 0 and 0
    for a material without ledger row, else the quantity and the average
    cost that its row under the largest key records. *)
Inductive previous_balance (db : DB) (code : string) : Q -> Q -> Prop :=
| previous_none :
    (forall r, In r (stock_ledger db) -> StockLedger.material_code r <> code) ->
    previous_balance db code 0 0
| previous_row (r0 : StockLedger.row) :
    In r0 (stock_ledger db) ->
    StockLedger.material_code r0 = code ->
    (forall r, In r (stock_ledger db) -> StockLedger.material_code r = code ->
               (StockLedger.id r <= StockLedger.id r0)%Z) ->
    previous_balance db code (StockLedger.qty_stock r0)
                     (StockLedger.cost_per_stock r0).

(** ** Any sequence of calls *)

(** One call of [post_stock]. *)
Record posting : Type := mkPosting {
  p_now : string;
  p_material_code : string;
  p_qty : Q;
  p_uom : string;
  p_cost_per_stock : Q;
  p_ref_type : string;
  p_ref_no : option string;
  p_note : string
}.

Definition post (p : posting) (db : DB) : result unit * DB :=
  post_stock (p_now p) (p_material_code p) (p_qty p) (p_uom p)
             (p_cost_per_stock p) (p_ref_type p) (p_ref_no p) (p_note p) db.

Inductive operation : Type :=
| OpPost (p : posting)
| OpReceive (now material_code : string) (qty_stock total_cost : Q)
            (ref_no : option string)
| OpIssue (now material_code : string) (qty_stock : Q) (ref_type : string)
          (ref_no : option string)
| OpStocktake (now now_post material_code : string) (counted_qty_stock : Q)
              (note : string)
| OpAdjust (a : adjustment)
| OpUpsertMaterial (row : Materials.row)
| OpDeleteMaterial (material_code : string).

Definition apply_operation (o : operation) (db : DB) : DB :=
  match o with
  | OpPost p => snd (post p db)
  | OpReceive now m q tc rn => snd (receive_purchase now m q tc rn db)
  | OpIssue now m q rt rn => snd (issue_stock now m q rt rn db)
  | OpStocktake now now_post m x note =>
      snd (post_stocktake now now_post m x note db)
  | OpAdjust a => snd (adjust a db)
  | OpUpsertMaterial row => upsert_material row db
  | OpDeleteMaterial m => delete_material m db
  end.

Definition apply_all (ops : list operation) (db : DB) : DB :=
  fold_left (fun d o => apply_operation o d) ops db.

(** The ledger [l'] is [l] with rows appended one at a time, each under
    the next key. *)
Inductive extends (l : list StockLedger.row) : list StockLedger.row -> Prop :=
| extends_same : extends l l
| extends_row (l' : list StockLedger.row) (r : StockLedger.row) :
    extends l l' ->
    StockLedger.id r = next_id (map StockLedger.id l') ->
    extends l (l' ++ [r]).

(** The materials an operation posts for. *)
Definition operation_materials (o : operation) : list string :=
  match o with
  | OpPost p => [p_material_code p]
  | OpReceive _ m _ _ _ => [m]
  | OpIssue _ m _ _ _ => [m]
  | OpStocktake _ _ m _ _ => [m]
  | OpAdjust a => [strip (a_code a)]
  | OpUpsertMaterial _ => []
  | OpDeleteMaterial _ => []
  end.

(** The (product, material) pairs of the formulas table, and a line as
    [set_formula] is given it and as the table holds it. *)
Definition formula_pairs (s : FormulaStore) : list (string * string) :=
  map (fun f => (Formulas.product_code f, Formulas.material_code f))
      (formula_rows s).

Definition formula_line (f : Formulas.row) : string * Q * string :=
  (Formulas.material_code f, Formulas.qty f, Formulas.uom f).

Definition input_line (r : formula_input) : string * Q * string :=
  (i_material_code r, i_qty r, i_uom r).

(** The calls that can change the database: the ones that do not read the
    clock through [datetime.now]. *)
Definition changes_database (o : operation) : bool :=
  match o with
  | OpAdjust _ | OpUpsertMaterial _ | OpDeleteMaterial _ => true
  | OpPost _ | OpReceive _ _ _ _ _ | OpIssue _ _ _ _ _
  | OpStocktake _ _ _ _ _ => false
  end.

(** The lines of [rows] that the foreign keys of [formulas] accept under
    [product_code]. *)
Definition formula_accepted (product_codes material_codes : list string)
    (product_code : string) (r : formula_input) : Prop :=
  In product_code product_codes /\ In (i_material_code r) material_codes.

(** * Properties *)

(** ** Sums *)

Lemma fold_left_Qplus (xs : list Q) (a : Q) :
  fold_left Qplus xs a == a + sumQ xs.
Proof.
  revert a; induction xs as [|x xs IH]; intros a; simpl.
  - ring.
  - rewrite IH. ring.
Qed.

Lemma COALESCE_SUM (xs : list Q) : COALESCE (SUM xs) 0 == sumQ xs.
Proof.
  destruct xs as [|x xs]; simpl.
  - reflexivity.
  - apply fold_left_Qplus.
Qed.

Lemma sumQ_app (xs ys : list Q) : sumQ (xs ++ ys) == sumQ xs + sumQ ys.
Proof.
  induction xs as [|x xs IH]; simpl.
  - ring.
  - rewrite IH. ring.
Qed.

Lemma fold_left_selected {A : Type} (select : A -> bool) (f : A -> Q)
    (l : list A) (a : Q) :
  fold_left (fun acc x => if select x then acc + f x else acc) l a
  == a + sumQ (map f (filter select l)).
Proof.
  revert a; induction l as [|x l IH]; intros a; simpl.
  - ring.
  - rewrite IH. destruct (select x); simpl; ring.
Qed.

Lemma entries_total_filter (column : StockLedger.row -> Q) (m : string)
    (ledger : list StockLedger.row) :
  entries_total column m ledger
  == sumQ (map column
             (filter (fun r => String.eqb (StockLedger.material_code r) m)
                     ledger)).
Proof.
  unfold entries_total. rewrite fold_left_selected. ring.
Qed.

Lemma entries_total_app (column : StockLedger.row -> Q) (m : string)
    (l1 l2 : list StockLedger.row) :
  entries_total column m (l1 ++ l2)
  == entries_total column m l1 + entries_total column m l2.
Proof.
  rewrite !entries_total_filter, filter_app, map_app, sumQ_app. reflexivity.
Qed.

Lemma entries_total_single (column : StockLedger.row -> Q) (m : string)
    (r : StockLedger.row) :
  entries_total column m [r]
  == (if String.eqb (StockLedger.material_code r) m then column r else 0).
Proof.
  unfold entries_total; simpl.
  destruct (String.eqb (StockLedger.material_code r) m); ring.
Qed.

(** ** The balance read *)

Lemma current_stock_quantity (db : DB) (m : string) :
  fst (_current_stock db m) == balance_quantity db m.
Proof.
  unfold _current_stock, balance_quantity, ledger_of; simpl.
  rewrite COALESCE_SUM, entries_total_filter. reflexivity.
Qed.

Lemma current_stock_average (db : DB) (m : string) :
  snd (_current_stock db m)
  == (if Qeq_bool (balance_quantity db m) 0 then 0
      else balance_cost db m / balance_quantity db m).
Proof.
  pose proof (current_stock_quantity db m) as Hq.
  assert (Hc : COALESCE (SUM (map StockLedger.total_cost (ledger_of db m))) 0
               == balance_cost db m).
  { unfold balance_cost, ledger_of.
    rewrite COALESCE_SUM, entries_total_filter. reflexivity. }
  unfold _current_stock in *; simpl in *.
  rewrite <- (Qeqb_comp _ _ Hq 0 0 (Qeq_refl 0)).
  destruct (Qeq_bool _ 0); simpl; [reflexivity|].
  rewrite Hq, Hc. reflexivity.
Qed.

Lemma In_distinct (c : string) (codes : list string) :
  In c (distinct codes) -> In c codes.
Proof.
  induction codes as [|c' codes IH]; simpl; [tauto|].
  intros [H | H]; [left; exact H|].
  apply filter_In in H. right. apply IH, H.
Qed.

(** Every row of [stock_on_hand] carries what [_current_stock] returns for
    its material. *)
Lemma stock_on_hand_current_stock (db : DB) code q c a :
  In (code, q, c, a) (stock_on_hand db) ->
  q = Some (fst (_current_stock db code))
  /\ a = Some (snd (_current_stock db code)).
Proof.
  unfold stock_on_hand. intros H. apply in_map_iff in H as [code' [E Hin]].
  injection E as -> <- <- <-.
  apply In_distinct, in_map_iff in Hin as [r [Hr Hin]].
  assert (Hrows : In r (ledger_of db code)).
  { apply filter_In. split; [exact Hin|]. apply String.eqb_eq, Hr. }
  unfold _current_stock.
  destruct (ledger_of db code) as [|r0 rows]; [contradiction|].
  simpl. split; [reflexivity|].
  destruct (Qeq_bool _ 0); reflexivity.
Qed.

Lemma average_cost_balance (db : DB) (m : string) :
  average_cost db m
  == (if Qeq_bool (balance_quantity db m) 0 then 0
      else balance_cost db m / balance_quantity db m).
Proof. apply current_stock_average. Qed.

Lemma on_hand_balance (db : DB) (m : string) :
  on_hand db m == balance_quantity db m.
Proof. apply current_stock_quantity. Qed.

(** ** What the calls write *)

Lemma Qgtb_true (x y : Q) : Qgtb x y = true <-> y < x.
Proof.
  unfold Qgtb. rewrite negb_true_iff, <- not_true_iff_false, Qle_bool_iff.
  split; [apply Qnot_le_lt | apply Qlt_not_le].
Qed.

Lemma Qgtb_false (x y : Q) : Qgtb x y = false <-> x <= y.
Proof.
  unfold Qgtb. rewrite negb_false_iff. apply Qle_bool_iff.
Qed.

Lemma Qltb_true (x y : Q) : Qltb x y = true <-> x < y.
Proof. apply Qgtb_true. Qed.

Lemma Qltb_false (x y : Q) : Qltb x y = false <-> y <= x.
Proof. apply Qgtb_false. Qed.

Lemma has_material_iff (db : DB) (code : string) :
  has_material db code = true
  <-> In code (map Materials.material_code (materials db)).
Proof.
  unfold has_material. rewrite existsb_exists, in_map_iff. split.
  - intros [m [Hm E]]. exists m. split; [apply String.eqb_eq, E | exact Hm].
  - intros [m [E Hm]]. exists m. split; [exact Hm | apply String.eqb_eq, E].
Qed.

Lemma post_stock_unchanged now m q uom c rt rn note db :
  snd (post_stock now m q uom c rt rn note db) = db.
Proof. reflexivity. Qed.

Lemma issue_stock_unchanged now m q rt rn db :
  snd (issue_stock now m q rt rn db) = db.
Proof.
  unfold issue_stock. destruct (_current_stock db m) as [cur avg].
  destruct (Qgtb q cur); reflexivity.
Qed.

Lemma post_stocktake_unchanged now now' m x note db :
  snd (post_stocktake now now' m x note db) = db.
Proof.
  unfold post_stocktake. destruct (_current_stock db m) as [sys avg].
  reflexivity.
Qed.

Lemma post_stock_adjustment_outcome today code delta uom cost note rt rn db :
  (exists e,
     post_stock_adjustment today code delta uom cost note rt rn db
     = (Raise e, db))
  \/ (exists r,
        post_stock_adjustment today code delta uom cost note rt rn db
        = (Ok tt, set_stock_ledger db (stock_ledger db ++ [r]))
        /\ has_material db (strip code) = true
        /\ StockLedger.id r = next_id (map StockLedger.id (stock_ledger db))
        /\ StockLedger.material_code r = strip code
        /\ StockLedger.qty r = delta
        /\ StockLedger.qty_stock r = prev_qty db (strip code) + delta).
Proof.
  unfold post_stock_adjustment.
  destruct (String.eqb (strip code) ""); [left; eexists; reflexivity|].
  destruct (Qltb (Qabs delta) (1 # 10000000)); [left; eexists; reflexivity|].
  destruct (has_material db (strip code)) eqn:Efk.
  - right.
    destruct (Qgtb delta 0);
      destruct (Qltb (Qabs _) (1 # 100000));
      eexists; (split; [reflexivity|]); repeat split.
  - left.
    destruct (Qgtb delta 0);
      destruct (Qltb (Qabs _) (1 # 100000));
      eexists; reflexivity.
Qed.

Lemma extends_trans (l1 l2 l3 : list StockLedger.row) :
  extends l1 l2 -> extends l2 l3 -> extends l1 l3.
Proof.
  intros H12 H23. induction H23 as [|l' r H23 IH Hid].
  - exact H12.
  - apply extends_row; assumption.
Qed.

Lemma extends_one (l : list StockLedger.row) (r : StockLedger.row) :
  StockLedger.id r = next_id (map StockLedger.id l) -> extends l (l ++ [r]).
Proof. intros H. apply extends_row; [apply extends_same | exact H]. Qed.

Lemma extends_appends (l l' : list StockLedger.row) :
  extends l l' -> exists added, l' = (l ++ added)%list.
Proof.
  induction 1 as [|l' r H [added ->] Hid].
  - exists []. symmetry. apply app_nil_r.
  - exists (added ++ [r])%list. symmetry. apply app_assoc.
Qed.

Lemma adjust_extends (a : adjustment) (db : DB) :
  extends (stock_ledger db) (stock_ledger (snd (adjust a db))).
Proof.
  unfold adjust.
  destruct (post_stock_adjustment_outcome (a_today a) (a_code a)
              (a_qty_delta a) (a_uom a) (a_cost_per_uom a) (a_note a)
              (a_ref_type a) (a_ref_no a) db)
    as [[e ->] | [r [-> [_ [Hid _]]]]]; simpl.
  - apply extends_same.
  - apply extends_one, Hid.
Qed.

Lemma apply_operation_extends (o : operation) (db : DB) :
  extends (stock_ledger db) (stock_ledger (apply_operation o db)).
Proof.
  destruct o; cbn [apply_operation].
  - unfold post. rewrite post_stock_unchanged. apply extends_same.
  - unfold receive_purchase. rewrite post_stock_unchanged. apply extends_same.
  - rewrite issue_stock_unchanged. apply extends_same.
  - rewrite post_stocktake_unchanged. apply extends_same.
  - apply adjust_extends.
  - apply extends_same.
  - apply extends_same.
Qed.

Lemma apply_all_extends (ops : list operation) (db : DB) :
  extends (stock_ledger db) (stock_ledger (apply_all ops db)).
Proof.
  revert db. induction ops as [|o ops IH]; intros db; simpl.
  - apply extends_same.
  - eapply extends_trans; [apply apply_operation_extends | apply IH].
Qed.


(** ** Planned issues *)

Lemma issue_stock_insufficient now m q rt rn db :
  on_hand db m < q ->
  issue_stock now m q rt rn db = (Raise (ValueError "Insufficient stock"), db).
Proof.
  intros H. unfold issue_stock, on_hand in *.
  destruct (_current_stock db m) as [cur avg]; simpl in *.
  apply Qgtb_true in H. rewrite H. reflexivity.
Qed.

Lemma run_call_unchanged (c : call) (db : DB) : snd (run_call c db) = db.
Proof.
  destruct c; cbn [run_call].
  - unfold receive_purchase. apply post_stock_unchanged.
  - apply issue_stock_unchanged.
Qed.

Lemma run_unchanged (cs : list call) (db : DB) : run cs db = db.
Proof.
  revert db. induction cs as [|c cs IH]; intros db; [reflexivity|].
  cbn [run fold_left]. rewrite run_call_unchanged. apply IH.
Qed.

(** C2.  No negative stock from planned issues.  From a database where no
    material is below 0, any sequence of [receive_purchase] and
    [issue_stock] calls keeps every material at or above 0 after every
    call; and an [issue_stock] call that asks for more than the quantity
    on hand raises "Insufficient stock" and leaves the database as it
    was.  (In the module as it is loaded none of these calls writes: a
    call that is not refused for insufficient stock ends in [post_stock],
    which raises; so the database after the sequence is the database
    before it.) *)
Theorem planned_calls_keep_stock_nonnegative (db : DB) (cs : list call) :
  (forall m, 0 <= on_hand db m) ->
  (forall done rest m, cs = (done ++ rest)%list -> 0 <= on_hand (run done db) m)
  /\ (forall db' now m q rt rn,
        on_hand db' m < q ->
        issue_stock now m q rt rn db'
        = (Raise (ValueError "Insufficient stock"), db'))
  /\ run cs db = db.
Proof.
  intros Hdb. split; [|split].
  - intros done rest m _. rewrite run_unchanged. apply Hdb.
  - intros db' now m q rt rn H. apply issue_stock_insufficient, H.
  - apply run_unchanged.
Qed.

Lemma planned_calls_keep_stock_nonnegative_witness :
  let db := snd (post_stock_adjustment "d0" "PIG-RED" 60 "kg" 5 "" "MANUAL" ""
                   catalogue) in
  let cs := [Receive "d1" "PIG-RED" 100 500 None;
             Issue "d2" "PIG-RED" 40 "BATCH" None;
             Issue "d3" "PIG-RED" 70 "BATCH" None] in
  0 <= on_hand (run cs db) "PIG-RED"
  /\ issue_stock "d3" "PIG-RED" 70 "BATCH" None db
     = (Raise (ValueError "Insufficient stock"), db).
Proof.
  intros db cs.
  assert (H0 : forall m, 0 <= on_hand db m).
  { intros m. unfold on_hand, _current_stock, ledger_of.
    set (l := stock_ledger db). vm_compute in l. subst l.
    cbn [filter StockLedger.material_code].
    destruct (String.eqb "PIG-RED" m); vm_compute; discriminate. }
  destruct (planned_calls_keep_stock_nonnegative db cs H0)
    as [Hnonneg [Hfail _]].
  split.
  - apply (Hnonneg cs [] "PIG-RED"). symmetry. apply app_nil_r.
  - apply Hfail. vm_compute. reflexivity.
Defined.

(** ** The latest row of a material *)

Lemma id_below_next_id (ids : list Z) (x : Z) :
  In x ids -> (x < next_id ids)%Z.
Proof.
  unfold next_id. induction ids as [|y ids IH]; cbn [fold_right In]; [tauto|].
  intros [-> | H]; [lia|]. specialize (IH H). lia.
Qed.

Lemma latest_row_from (rows : list StockLedger.row) (start b : option StockLedger.row) :
  fold_left
    (fun best r =>
       match best with
       | None => Some r
       | Some b => if (StockLedger.id b <? StockLedger.id r)%Z
                   then Some r else Some b
       end)
    rows start = b ->
  b = start \/ exists r, b = Some r /\ In r rows.
Proof.
  revert start; induction rows as [|r rows IH]; intros start H; simpl in *.
  - left. symmetry. exact H.
  - destruct (IH _ H) as [E | [r' [E Hin]]].
    + destruct start as [b0|].
      * destruct (StockLedger.id b0 <? StockLedger.id r)%Z.
        -- right. exists r. split; [exact E | left; reflexivity].
        -- left. exact E.
      * right. exists r. split; [exact E | left; reflexivity].
    + right. exists r'. split; [exact E | right; exact Hin].
Qed.

Lemma latest_row_newest (rows : list StockLedger.row) (r : StockLedger.row) :
  (forall b, In b rows -> (StockLedger.id b < StockLedger.id r)%Z) ->
  latest_row (rows ++ [r]) = Some r.
Proof.
  intros H. unfold latest_row. rewrite fold_left_app. simpl.
  destruct (fold_left _ rows None) as [b|] eqn:E; [|reflexivity].
  apply latest_row_from in E as [E | [b' [E Hin]]]; [discriminate|].
  injection E as ->. apply H in Hin. apply Z.ltb_lt in Hin. rewrite Hin.
  reflexivity.
Qed.

Lemma unique_id_row (l : list StockLedger.row) (a b : StockLedger.row) :
  NoDup (map StockLedger.id l) ->
  In a l -> In b l -> StockLedger.id a = StockLedger.id b -> a = b.
Proof.
  induction l as [|x l IH]; simpl; [tauto|].
  intros Hnd Ha Hb E. apply NoDup_cons_iff in Hnd as [Hx Hnd].
  destruct Ha as [-> | Ha]; destruct Hb as [-> | Hb].
  - reflexivity.
  - exfalso. apply Hx. rewrite E. apply in_map, Hb.
  - exfalso. apply Hx. rewrite <- E. apply in_map, Ha.
  - apply IH; assumption.
Qed.

Lemma MAX_attained (rows : list StockLedger.row) (k : Z) :
  MAX (map StockLedger.id rows) = Some k ->
  (exists r, In r rows /\ StockLedger.id r = k)
  /\ forall b, In b rows -> (StockLedger.id b <= k)%Z.
Proof.
  destruct rows as [|r0 rows]; [discriminate|]. simpl.
  intros E. injection E as <-.
  revert r0. induction rows as [|r rows IH]; intros r0; simpl.
  - split; [exists r0; auto|]. intros b [-> | []]. lia.
  - destruct (IH (if (StockLedger.id r0 <? StockLedger.id r)%Z then r else r0))
      as [[w [Hw Ew]] Hmax].
    assert (Em : Z.max (StockLedger.id r0) (StockLedger.id r)
                 = StockLedger.id
                     (if (StockLedger.id r0 <? StockLedger.id r)%Z
                      then r else r0)).
    { destruct (Z.ltb_spec (StockLedger.id r0) (StockLedger.id r)); lia. }
    rewrite Em. split.
    + exists w. split; [|exact Ew].
      destruct Hw as [<- | Hw]; [|auto].
      destruct (StockLedger.id r0 <? StockLedger.id r)%Z; auto.
    + intros b [-> | [-> | Hb]].
      * specialize (Hmax _ (or_introl eq_refl)).
        destruct (Z.ltb_spec (StockLedger.id b) (StockLedger.id r));
          simpl in Hmax; lia.
      * specialize (Hmax _ (or_introl eq_refl)).
        destruct (Z.ltb_spec (StockLedger.id r0) (StockLedger.id b));
          simpl in Hmax; lia.
      * apply Hmax. right. exact Hb.
Qed.

Lemma latest_row_bounds (rows : list StockLedger.row)
    (start : option StockLedger.row) (res : StockLedger.row) :
  fold_left
    (fun best r =>
       match best with
       | None => Some r
       | Some b => if (StockLedger.id b <? StockLedger.id r)%Z
                   then Some r else Some b
       end)
    rows start = Some res ->
  (forall b, start = Some b -> (StockLedger.id b <= StockLedger.id res)%Z)
  /\ forall b, In b rows -> (StockLedger.id b <= StockLedger.id res)%Z.
Proof.
  revert start. induction rows as [|r rows IH]; intros start H; simpl in *.
  - split; [|tauto]. intros b E. rewrite E in H. injection H as ->. lia.
  - destruct (IH _ H) as [Hstart Hrows]. split.
    + intros b ->.
      destruct (Z.ltb_spec (StockLedger.id b) (StockLedger.id r)).
      * specialize (Hstart r eq_refl). lia.
      * apply (Hstart b eq_refl).
    + intros b [<- | Hb]; [|apply Hrows, Hb].
      destruct start as [b0|].
      * destruct (Z.ltb_spec (StockLedger.id b0) (StockLedger.id r)).
        -- apply (Hstart r eq_refl).
        -- specialize (Hstart b0 eq_refl). lia.
      * apply (Hstart r eq_refl).
Qed.

Lemma latest_row_some (rows : list StockLedger.row) (r0 : StockLedger.row) :
  exists res, latest_row (r0 :: rows) = Some res.
Proof.
  unfold latest_row. simpl. generalize r0. clear r0.
  induction rows as [|r rows IH]; intros r0; simpl.
  - exists r0. reflexivity.
  - destruct (StockLedger.id r0 <? StockLedger.id r)%Z; apply IH.
Qed.

(** With unique keys, the latest row is the row under the largest key. *)
Lemma latest_row_is_max (ledger rows : list StockLedger.row)
    (l : StockLedger.row) :
  NoDup (map StockLedger.id ledger) ->
  incl rows ledger ->
  In l rows ->
  (forall b, In b rows -> (StockLedger.id b <= StockLedger.id l)%Z) ->
  latest_row rows = Some l.
Proof.
  intros Hnd Hincl Hl Hmax.
  destruct rows as [|r0 rows]; [contradiction|].
  destruct (latest_row_some rows r0) as [res Hres]. rewrite Hres. f_equal.
  pose proof Hres as Hin. unfold latest_row in Hin.
  apply latest_row_from in Hin as [Hin | [res' [E Hin]]]; [discriminate|].
  injection E as <-.
  apply latest_row_bounds in Hres as [_ Hres].
  apply (unique_id_row ledger); auto.
  specialize (Hres l Hl). specialize (Hmax res Hin). lia.
Qed.

Lemma ledger_of_incl (db : DB) (m : string) :
  incl (ledger_of db m) (stock_ledger db).
Proof. intros r H. apply filter_In in H. apply H. Qed.

Lemma ledger_of_code (db : DB) (m : string) (r : StockLedger.row) :
  In r (ledger_of db m) -> StockLedger.material_code r = m.
Proof. intros H. apply filter_In in H as [_ H]. apply String.eqb_eq, H. Qed.

Lemma filter_none {A : Type} (f : A -> bool) (l : list A) :
  (forall x, In x l -> f x = false) -> filter f l = [].
Proof.
  induction l as [|x l IH]; simpl; intros H; [reflexivity|].
  rewrite (H x (or_introl eq_refl)). apply IH. intros y Hy. apply H. right.
  exact Hy.
Qed.

Lemma filter_all {A : Type} (f : A -> bool) (l : list A) :
  (forall x, In x l -> f x = true) -> filter f l = l.
Proof.
  induction l as [|x l IH]; simpl; intros H; [reflexivity|].
  rewrite (H x (or_introl eq_refl)). f_equal. apply IH. intros y Hy.
  apply H. right. exact Hy.
Qed.

Lemma previous_balance_latest (db : DB) (code : string) (pq pc : Q) :
  NoDup (map StockLedger.id (stock_ledger db)) ->
  previous_balance db code pq pc ->
  pq = prev_qty db code /\ pc = prev_cost db code.
Proof.
  intros Hnd [Hnone | r0 Hin Hcode Hmax]; unfold prev_qty, prev_cost.
  - assert (E : ledger_of db code = []).
    { apply filter_none. intros r Hr. apply String.eqb_neq, Hnone, Hr. }
    rewrite E. split; reflexivity.
  - assert (Hrow : In r0 (ledger_of db code)).
    { apply filter_In. split; [exact Hin | apply String.eqb_eq, Hcode]. }
    rewrite (latest_row_is_max (stock_ledger db) (ledger_of db code) r0 Hnd
               (ledger_of_incl db code) Hrow).
    + split; reflexivity.
    + intros b Hb. apply Hmax.
      * apply (ledger_of_incl db code), Hb.
      * apply (ledger_of_code db code), Hb.
Qed.

(** ** Manual adjustments *)

Lemma post_stock_adjustment_blank_code today code delta uom cost note rt rn db :
  strip code = "" ->
  post_stock_adjustment today code delta uom cost note rt rn db
  = (Raise (ValueError "code is required."), db).
Proof.
  intros H. unfold post_stock_adjustment. rewrite H. reflexivity.
Qed.

Lemma post_stock_adjustment_zero_delta today code delta uom cost note rt rn db :
  strip code <> "" ->
  Qabs delta < 1 # 10000000 ->
  post_stock_adjustment today code delta uom cost note rt rn db
  = (Raise (ValueError "qty_delta cannot be zero."), db).
Proof.
  intros Hc Hd. unfold post_stock_adjustment.
  apply String.eqb_neq in Hc. rewrite Hc.
  apply Qltb_true in Hd. rewrite Hd. reflexivity.
Qed.

Lemma post_stock_adjustment_unknown_code
    today code delta uom cost note rt rn db :
  strip code <> "" ->
  1 # 10000000 <= Qabs delta ->
  ~ In (strip code) (map Materials.material_code (materials db)) ->
  post_stock_adjustment today code delta uom cost note rt rn db
  = (Raise foreign_key_failed, db).
Proof.
  intros Hc Hd Hfk. unfold post_stock_adjustment.
  apply String.eqb_neq in Hc. rewrite Hc.
  apply Qltb_false in Hd. rewrite Hd.
  assert (E : has_material db (strip code) = false).
  { destruct (has_material db (strip code)) eqn:E; [|reflexivity].
    apply has_material_iff in E. contradiction. }
  rewrite E.
  destruct (Qgtb delta 0); destruct (Qltb (Qabs _) (1 # 100000)); reflexivity.
Qed.

(** C3.  Manual adjustment cost policy.  An adjustment that is accepted
    (a code that is not blank and is in the materials table, a delta of at
    least 1e-7 in absolute value) appends one ledger row and changes
    nothing else.  The row records the movement and the balance after it,
    starting from the balance before it (prev_qty, prev_cost: what the
    material's row under the largest key records, 0 and 0 without one):
    - for a positive delta the movement is costed at the cost given by the
      caller and the recorded average cost is
      (prev_qty * prev_cost + delta * cost) / (prev_qty + delta);
    - for a negative delta the movement is costed at the previous average
      cost, and the recorded average cost is that same cost;
    in both cases the recorded average cost is 0 when the new quantity is
    below 1e-5 in absolute value. *)
Theorem post_stock_adjustment_cost_policy
    today code delta uom cost note rt rn db pq pc :
  strip code <> "" ->
  1 # 10000000 <= Qabs delta ->
  In (strip code) (map Materials.material_code (materials db)) ->
  NoDup (map StockLedger.id (stock_ledger db)) ->
  previous_balance db (strip code) pq pc ->
  exists db' r,
    post_stock_adjustment today code delta uom cost note rt rn db
    = (Ok tt, db')
    /\ stock_ledger db' = (stock_ledger db ++ [r])%list
    /\ materials db' = materials db
    /\ formulas db' = formulas db
    /\ stocktake db' = stocktake db
    /\ StockLedger.material_code r = strip code
    /\ StockLedger.qty r = delta
    /\ StockLedger.qty_stock r == pq + delta
    /\ ((0 < delta
         /\ StockLedger.total_cost r == delta * cost
         /\ (Qabs (pq + delta) < 1 # 100000 ->
             StockLedger.cost_per_stock r == 0)
         /\ (1 # 100000 <= Qabs (pq + delta) ->
             StockLedger.cost_per_stock r
             == (pq * pc + delta * cost) / (pq + delta)))
        \/ (delta < 0
            /\ StockLedger.total_cost r == delta * pc
            /\ (Qabs (pq + delta) < 1 # 100000 ->
                StockLedger.cost_per_stock r == 0)
            /\ (1 # 100000 <= Qabs (pq + delta) ->
                StockLedger.cost_per_stock r == pc))).
Proof.
  intros Hc Hd Hfk Hnd Hprev.
  destruct (previous_balance_latest db (strip code) pq pc Hnd Hprev)
    as [-> ->].
  unfold post_stock_adjustment.
  apply String.eqb_neq in Hc. rewrite Hc.
  apply Qltb_false in Hd. rewrite Hd.
  apply has_material_iff in Hfk. rewrite Hfk.
  fold (prev_qty db (strip code)) (prev_cost db (strip code)).
  set (pq := prev_qty db (strip code)). set (pc := prev_cost db (strip code)).
  apply Qltb_false in Hd.
  destruct (Qgtb delta 0) eqn:Hsign.
  - apply Qgtb_true in Hsign.
    destruct (Qltb (Qabs (pq + delta)) (1 # 100000)) eqn:Hthr;
      do 2 eexists; (split; [reflexivity|]); simpl;
      do 7 (split; [reflexivity|]); left;
      do 2 (split; [first [exact Hsign | reflexivity]|]).
    + apply Qltb_true in Hthr. split; [reflexivity|].
      intros H. exfalso. apply (Qlt_not_le _ _ Hthr H).
    + apply Qltb_false in Hthr. split; [|reflexivity].
      intros H. exfalso. apply (Qlt_not_le _ _ H Hthr).
  - apply Qgtb_false in Hsign.
    assert (Hneg : delta < 0).
    { rewrite (Qabs_neg delta Hsign) in Hd. lra. }
    destruct (Qltb (Qabs (pq + delta)) (1 # 100000)) eqn:Hthr;
      do 2 eexists; (split; [reflexivity|]); simpl;
      do 7 (split; [reflexivity|]); right;
      do 2 (split; [first [exact Hneg | reflexivity]|]).
    + apply Qltb_true in Hthr. split; [reflexivity|].
      intros H. exfalso. apply (Qlt_not_le _ _ Hthr H).
    + apply Qltb_false in Hthr. split; [|reflexivity].
      intros H. exfalso. apply (Qlt_not_le _ _ H Hthr).
Qed.

Lemma post_stock_adjustment_cost_policy_witness :
  let db := snd (post_stock_adjustment "d1" "PIG-RED" 100 "kg" 5 "" "MANUAL" ""
                   catalogue) in
  exists db' r,
    post_stock_adjustment "d2" " PIG-RED " 100 "kg" 10 "" "MANUAL" "" db
    = (Ok tt, db')
    /\ stock_ledger db' = (stock_ledger db ++ [r])%list
    /\ StockLedger.qty_stock r == 200
    /\ StockLedger.cost_per_stock r == 15 # 2.
Proof.
  intros db.
  assert (Hc : strip " PIG-RED " <> "") by (vm_compute; discriminate).
  assert (Hd : 1 # 10000000 <= Qabs 100) by (vm_compute; discriminate).
  assert (Hfk : In (strip " PIG-RED ")
                   (map Materials.material_code (materials db)))
    by (left; reflexivity).
  assert (Hnd : NoDup (map StockLedger.id (stock_ledger db))).
  { repeat constructor. intros []. }
  assert (Hprev : previous_balance db (strip " PIG-RED ")
                    (0 + 100) ((0 * 0 + 100 * 5) / (0 + 100))).
  { apply (previous_row db (strip " PIG-RED ")
             (StockLedger.mk 1 "d1" "MANUAL" (Some "") "PIG-RED" 100 "kg"
                (0 + 100) ((0 * 0 + 100 * 5) / (0 + 100)) (100 * 5)
                (Some ""))).
    - left. reflexivity.
    - reflexivity.
    - intros r [<- | []] _. vm_compute. discriminate. }
  destruct (post_stock_adjustment_cost_policy "d2" " PIG-RED " 100 "kg" 10 ""
              "MANUAL" "" db _ _ Hc Hd Hfk Hnd Hprev)
    as [db' [r [Hpost [Hrows [_ [_ [_ [_ [_ [Hqty Hcost]]]]]]]]]].
  exists db', r. split; [exact Hpost|]. split; [exact Hrows|]. split.
  - rewrite Hqty. vm_compute. reflexivity.
  - destruct Hcost as [[_ [_ [_ Hnew]]] | [Hneg _]].
    + rewrite Hnew; [vm_compute; reflexivity | vm_compute; discriminate].
    + exfalso. revert Hneg. vm_compute. discriminate.
Defined.

(** ** Receipts, issues, zero movements and stocktakes *)


(** C5.  Stocktake round trip: the stocktake is not posted.  With 60 on
    hand, [post_stocktake] of a count of 45 raises AttributeError while it
    builds the stocktake record (it asks the module [datetime] for [now])
    and writes neither the record nor a ledger entry. *)
Theorem post_stocktake_fails :
  let db := snd (post_stock_adjustment "d0" "PIG-RED" 60 "kg" 5 "" "MANUAL" ""
                   catalogue) in
  on_hand db "PIG-RED" == 60
  /\ post_stocktake "d1" "d1" "PIG-RED" 45 "" db
     = (Raise (AttributeError "module 'datetime' has no attribute 'now'"), db).
Proof.
  intros db. split; [vm_compute; reflexivity | reflexivity].
Qed.

(** C6.  Receive validation: a receipt of a quantity > 0 is not posted.
    [receive_purchase] of 100 for 500 raises AttributeError and appends no
    entry; a quantity of 0 meets the same AttributeError, no check of the
    quantity. *)
Theorem receive_purchase_fails :
  receive_purchase "d1" "PIG-RED" 100 500 None catalogue
  = (Raise (AttributeError "module 'datetime' has no attribute 'now'"),
     catalogue)
  /\ receive_purchase "d1" "PIG-RED" 0 10 None catalogue
     = (Raise (AttributeError "module 'datetime' has no attribute 'now'"),
        catalogue).
Proof. split; reflexivity. Qed.

(** C7.  Zero-movement rejection: [post_stock] does not look at the
    quantity.  A movement of 0 and a movement of 5 end the same way, with
    the AttributeError of the first line of the function. *)
Theorem post_stock_fails_for_any_quantity :
  post_stock "d1" "PIG-RED" 0 "STOCK" 5 "MANUAL" None "" catalogue
  = (Raise (AttributeError "module 'datetime' has no attribute 'now'"),
     catalogue)
  /\ post_stock "d1" "PIG-RED" 5 "STOCK" 5 "MANUAL" None "" catalogue
     = (Raise (AttributeError "module 'datetime' has no attribute 'now'"),
        catalogue).
Proof. split; reflexivity. Qed.

(** ** Deleting a material *)

Lemma guarded_delete_refuses_movements (m : string) (db : DB) :
  ledger_of db m <> [] ->
  Guarded.delete_material m db
  = (Raise (ValueError "Material has stock movements and cannot be deleted"),
     db).
Proof.
  intros H. unfold Guarded.delete_material.
  destruct (ledger_of db m) as [|r rows]; [contradiction|]. reflexivity.
Qed.

Lemma guarded_delete_refuses_formulas (m : string) (db : DB) :
  filter (fun f => String.eqb (Formulas.material_code f) m) (formulas db)
    <> [] ->
  exists msg, Guarded.delete_material m db = (Raise (ValueError msg), db).
Proof.
  intros H. unfold Guarded.delete_material.
  destruct (0 <? Z.of_nat (List.length (ledger_of db m)))%Z;
    [eexists; reflexivity|].
  destruct (filter _ (formulas db)) as [|f fs]; [contradiction|].
  eexists; reflexivity.
Qed.

(** C8.  Referential delete protection is what the first definition of
    [delete_material] does and its docstring says; the definition the
    module ends up with deletes without looking.  Here a material with a
    ledger movement and a formula line is deleted by [delete_material],
    where the first definition raises and leaves the table as it is. *)
Theorem delete_material_ignores_references :
  let db :=
    snd (post_stock_adjustment "d1" "PIG-RED" 100 "kg" 5 "" "MANUAL" ""
           catalogue) in
  ledger_of db "PIG-RED" <> []
  /\ materials (delete_material "PIG-RED" db) = []
  /\ Guarded.delete_material "PIG-RED" db
     = (Raise (ValueError "Material has stock movements and cannot be deleted"),
        db).
Proof.
  intros db. split; [discriminate|]. split; reflexivity.
Qed.

(** ** The two stock views *)

(** C10.  After two manual additions of one material, 100 at 5 and 100
    at 10, the material has 200 on hand at an average cost of 7.5, which
    is what [get_stock_on_hand] reports from the latest row;
    [stock_on_hand] and [_current_stock] add up the balances that the rows
    record and report 300 at 5. *)
Theorem stock_views_disagree :
  let db :=
    snd (post_stock_adjustment "d2" "PIG-RED" 100 "kg" 10 "" "MANUAL" ""
           (snd (post_stock_adjustment "d1" "PIG-RED" 100 "kg" 5 "" "MANUAL" ""
                   catalogue))) in
  match get_stock_on_hand db, stock_on_hand db with
  | [v], [(code, Some qty, _, Some avg)] =>
      StockView.code v = "PIG-RED" /\ code = "PIG-RED"
      /\ StockView.qty_on_hand v == 200 /\ StockView.avg_cost v == 15 # 2
      /\ qty == 300 /\ avg == 5
      /\ on_hand db "PIG-RED" == 300
      /\ average_cost db "PIG-RED" == 5
  | _, _ => False
  end.
Proof.
  vm_compute. repeat split; reflexivity.
Qed.

(** * Further properties of the code *)

(** ** The ledger only grows *)

(** X1.  Whatever is called, in whatever order, the rows that are in the
    ledger stay as they are, where they are: rows are only appended. *)
Theorem ledger_is_append_only (ops : list operation) (db : DB) :
  exists added,
    stock_ledger (apply_all ops db) = (stock_ledger db ++ added)%list.
Proof. apply extends_appends, apply_all_extends. Qed.

Lemma max_of_count_up (n : nat) :
  fold_right Z.max 0%Z (map Z.of_nat (seq 1 n)) = Z.of_nat n.
Proof.
  induction n as [|n IH]; [reflexivity|].
  rewrite seq_S, map_app. simpl.
  assert (H : forall l x, fold_right Z.max 0%Z (l ++ [x])
                          = Z.max (fold_right Z.max 0%Z l) (Z.max x 0)).
  { induction l as [|y l IHl]; intros x; cbn [fold_right app].
    - lia.
    - rewrite IHl. lia. }
  rewrite H, IH. lia.
Qed.

Lemma extends_counts_up (l l' : list StockLedger.row) :
  extends l l' ->
  map StockLedger.id l = map Z.of_nat (seq 1 (List.length l)) ->
  map StockLedger.id l' = map Z.of_nat (seq 1 (List.length l')).
Proof.
  induction 1 as [|l' r H IH Hid]; intros Hl; [exact Hl|].
  specialize (IH Hl).
  rewrite map_app, length_app, seq_app, map_app. simpl.
  rewrite <- IH. f_equal. rewrite Hid, IH. unfold next_id.
  rewrite max_of_count_up. f_equal. lia.
Qed.

(** X2.  On a ledger that started empty the keys are 1, 2, 3, ... in the order
    of posting, whatever was called. *)
Theorem ledger_ids_count_up (ops : list operation) (db : DB) :
  stock_ledger db = [] ->
  map StockLedger.id (stock_ledger (apply_all ops db))
  = map Z.of_nat (seq 1 (List.length (stock_ledger (apply_all ops db)))).
Proof.
  intros Hempty. apply (extends_counts_up (stock_ledger db)).
  - apply apply_all_extends.
  - rewrite Hempty. reflexivity.
Qed.

Lemma ledger_ids_count_up_witness :
  map StockLedger.id
    (stock_ledger
       (apply_all
          [OpReceive "d1" "PIG-RED" 100 500 None;
           OpAdjust (mkAdjustment "d2" "PIG-RED" 100 "kg" 5 "" "MANUAL" "");
           OpStocktake "d3" "d3" "PIG-RED" 90 "";
           OpAdjust (mkAdjustment "d4" "PIG-BLUE" 5 "kg" 6 "" "MANUAL" "");
           OpAdjust (mkAdjustment "d5" "PIG-RED" (-30) "kg" 0 "" "MANUAL" "")]
          catalogue))
  = [1; 2]%Z.
Proof.
  rewrite (ledger_ids_count_up _ catalogue eq_refl). reflexivity.
Defined.

(** ** Materials do not interfere *)

Lemma extends_other_material (l l' : list StockLedger.row) (m : string) :
  extends l l' ->
  (forall r, In r l' -> In r l \/ StockLedger.material_code r <> m) ->
  filter (fun r => String.eqb (StockLedger.material_code r) m) l'
  = filter (fun r => String.eqb (StockLedger.material_code r) m) l.
Proof.
  induction 1 as [|l' r H IH Hid]; intros Hnew; [reflexivity|].
  rewrite filter_app. simpl.
  destruct (String.eqb (StockLedger.material_code r) m) eqn:E.
  - exfalso. apply String.eqb_eq in E.
    destruct (Hnew r) as [Hin | Hne]; [apply in_or_app; right; left; reflexivity | | contradiction].
    (* a row of [l] under the next key of [l']: no such row *)
    apply extends_appends in H as [added ->].
    assert (Hlt : (StockLedger.id r < next_id (map StockLedger.id (l ++ added)))%Z).
    { apply id_below_next_id, in_map, in_or_app. left. exact Hin. }
    lia.
  - rewrite app_nil_r. apply IH. intros r' Hr'. apply Hnew, in_or_app.
    left. exact Hr'.
Qed.

Lemma apply_operation_new_rows (o : operation) (db : DB) (r : StockLedger.row) :
  In r (stock_ledger (apply_operation o db)) ->
  In r (stock_ledger db)
  \/ In (StockLedger.material_code r) (operation_materials o).
Proof.
  destruct o; cbn [apply_operation operation_materials].
  - unfold post. rewrite post_stock_unchanged. auto.
  - unfold receive_purchase. rewrite post_stock_unchanged. auto.
  - rewrite issue_stock_unchanged. auto.
  - rewrite post_stocktake_unchanged. auto.
  - unfold adjust.
    destruct (post_stock_adjustment_outcome (a_today a) (a_code a)
                (a_qty_delta a) (a_uom a) (a_cost_per_uom a) (a_note a)
                (a_ref_type a) (a_ref_no a) db)
      as [[e ->] | [r' [-> [_ [_ [Hcode _]]]]]]; simpl; [auto|].
    intros H. apply in_app_or in H as [H | [E | []]]; [auto|].
    subst r'. right. left. symmetry. exact Hcode.
  - auto.
  - auto.
Qed.

(** X3.  An operation changes nothing for the materials it is not about: their
    ledger rows, quantity on hand and average cost are what they were.
    Changes to the materials master never change a stock figure. *)
Theorem other_materials_untouched (o : operation) (db : DB) (m : string) :
  ~ In m (operation_materials o) ->
  ledger_of (apply_operation o db) m = ledger_of db m
  /\ _current_stock (apply_operation o db) m = _current_stock db m.
Proof.
  intros Hm.
  assert (E : ledger_of (apply_operation o db) m = ledger_of db m).
  { unfold ledger_of. apply extends_other_material.
    - apply apply_operation_extends.
    - intros r Hr. apply apply_operation_new_rows in Hr as [Hr | Hr].
      + left. exact Hr.
      + right. intros E. rewrite E in Hr. contradiction. }
  split; [exact E|]. unfold _current_stock. rewrite E. reflexivity.
Qed.

Lemma other_materials_untouched_witness :
  _current_stock
    (apply_operation
       (OpAdjust (mkAdjustment "d2" "PIG-BLUE" 10 "kg" 4 "" "MANUAL" ""))
       (upsert_material (sample_material "PIG-BLUE" "Blue pigment")
          (snd (post_stock_adjustment "d1" "PIG-RED" 100 "kg" 5 "" "MANUAL" ""
                  catalogue))))
    "PIG-RED"
  = _current_stock
      (upsert_material (sample_material "PIG-BLUE" "Blue pigment")
         (snd (post_stock_adjustment "d1" "PIG-RED" 100 "kg" 5 "" "MANUAL" ""
                 catalogue)))
      "PIG-RED".
Proof.
  apply other_materials_untouched. simpl. intros [H | []]. discriminate H.
Defined.

(** ** Manual adjustments *)

(** X10.  The contract of [post_stock_adjustment], in the order of its
    checks: a blank code raises ValueError, then a delta below 1e-7 in
    absolute value raises ValueError, then a code that is not in the
    materials table fails the foreign key with IntegrityError; each
    refused call changes nothing.  Every other call appends exactly one
    row to the ledger. *)
Theorem post_stock_adjustment_refusals today code delta uom cost note rt rn db :
  let out := post_stock_adjustment today code delta uom cost note rt rn db in
  (strip code = ""
   /\ out = (Raise (ValueError "code is required."), db))
  \/ (strip code <> "" /\ Qabs delta < 1 # 10000000
      /\ out = (Raise (ValueError "qty_delta cannot be zero."), db))
  \/ (strip code <> "" /\ 1 # 10000000 <= Qabs delta
      /\ ~ In (strip code) (map Materials.material_code (materials db))
      /\ out = (Raise (IntegrityError "FOREIGN KEY constraint failed"), db))
  \/ (strip code <> "" /\ 1 # 10000000 <= Qabs delta
      /\ In (strip code) (map Materials.material_code (materials db))
      /\ fst out = Ok tt
      /\ exists r, stock_ledger (snd out) = (stock_ledger db ++ [r])%list
                   /\ StockLedger.material_code r = strip code
                   /\ StockLedger.qty r = delta).
Proof.
  intros out. unfold out.
  destruct (String.eqb_spec (strip code) "") as [Ec | Ec].
  - left. split; [exact Ec|]. apply post_stock_adjustment_blank_code, Ec.
  - right. destruct (Qlt_le_dec (Qabs delta) (1 # 10000000)) as [Hd | Hd].
    + left. split; [exact Ec|]. split; [exact Hd|].
      apply post_stock_adjustment_zero_delta; assumption.
    + right.
      destruct (has_material db (strip code)) eqn:Efk.
      * right. apply has_material_iff in Efk as Hin.
        split; [exact Ec|]. split; [exact Hd|]. split; [exact Hin|].
        destruct (post_stock_adjustment_outcome today code delta uom cost note
                    rt rn db)
          as [[e He] | [r [He [_ [_ [Hcode [Hqty _]]]]]]].
        -- exfalso. revert He. unfold post_stock_adjustment.
           apply String.eqb_neq in Ec. rewrite Ec.
           apply Qltb_false in Hd. rewrite Hd, Efk.
           destruct (Qgtb delta 0); destruct (Qltb (Qabs _) (1 # 100000));
             discriminate.
        -- rewrite He. split; [reflexivity|]. exists r. simpl. auto.
      * left. split; [exact Ec|]. split; [exact Hd|].
        assert (Hnot : ~ In (strip code)
                         (map Materials.material_code (materials db))).
        { intros H. apply has_material_iff in H. congruence. }
        split; [exact Hnot|].
        apply post_stock_adjustment_unknown_code; assumption.
Qed.

Lemma adjust_tracks_balance (a : adjustment) (db : DB) :
  (forall m, prev_qty db m == moved_quantity db m) ->
  forall m, prev_qty (snd (adjust a db)) m == moved_quantity (snd (adjust a db)) m.
Proof.
  intros Hdb m. unfold adjust.
  destruct (post_stock_adjustment_outcome (a_today a) (a_code a)
              (a_qty_delta a) (a_uom a) (a_cost_per_uom a) (a_note a)
              (a_ref_type a) (a_ref_no a) db)
    as [[e ->] | [r [-> [_ [Hid [Hcode [Hqty Hstock]]]]]]]; simpl.
  - apply Hdb.
  - unfold moved_quantity, prev_qty, ledger_of in *; simpl.
    rewrite entries_total_app, entries_total_single, filter_app. simpl.
    rewrite Hcode.
    destruct (String.eqb (strip (a_code a)) m) eqn:E.
    + apply String.eqb_eq in E. subst m.
      rewrite latest_row_newest.
      * rewrite Hstock, Hqty, Hdb. reflexivity.
      * intros b Hb. apply filter_In in Hb as [Hb _]. rewrite Hid.
        apply id_below_next_id, in_map, Hb.
    + rewrite app_nil_r, Hdb. ring.
Qed.

(** X11.  On a ledger that only [post_stock_adjustment] has written, the
    quantity it starts from (the [qty_stock] of the latest row of the
    material) is the sum of the movements of the material. *)
Lemma adjustments_track_balance (adjs : list adjustment) (db : DB) :
  stock_ledger db = [] ->
  forall m,
    prev_qty (adjust_all adjs db) m == moved_quantity (adjust_all adjs db) m.
Proof.
  intros Hempty.
  assert (H0 : forall m, prev_qty db m == moved_quantity db m).
  { intros m. unfold prev_qty, moved_quantity, ledger_of. rewrite Hempty.
    reflexivity. }
  clear Hempty. revert db H0.
  induction adjs as [|a adjs IH]; intros db H0 m; [apply H0|].
  simpl. apply IH. apply adjust_tracks_balance, H0.
Qed.

Lemma adjustments_track_balance_witness :
  prev_qty
    (adjust_all
       [mkAdjustment "d1" "PIG-RED" 100 "kg" 5 "" "MANUAL" "";
        mkAdjustment "d2" " PIG-RED" (-30) "kg" 0 "" "MANUAL" "";
        mkAdjustment "d3" "" 7 "kg" 0 "" "MANUAL" "";
        mkAdjustment "d4" "PIG-BLUE" 7 "kg" 0 "" "MANUAL" ""]
       catalogue)
    "PIG-RED"
  == 70.
Proof.
  rewrite (adjustments_track_balance _ catalogue eq_refl "PIG-RED").
  vm_compute. reflexivity.
Defined.

(** ** The stock-on-hand view *)

Lemma extends_unique_ids (l l' : list StockLedger.row) :
  extends l l' ->
  NoDup (map StockLedger.id l) -> NoDup (map StockLedger.id l').
Proof.
  induction 1 as [|l' r H IH Hid]; intros Hl; [exact Hl|].
  rewrite map_app. apply NoDup_app.
  - apply IH, Hl.
  - simpl. constructor; [intros [] | constructor].
  - intros x Hx [E | []]. subst x.
    apply id_below_next_id in Hx. lia.
Qed.

Lemma view_row_source (db : DB) (v : StockView.row) :
  NoDup (map StockLedger.id (stock_ledger db)) ->
  In v (get_stock_on_hand db) ->
  exists l,
    latest_row (ledger_of db (StockView.code v)) = Some l
    /\ Qabs (StockLedger.qty_stock l) > 1 # 100000
    /\ StockView.qty_on_hand v = round (StockLedger.qty_stock l) 4
    /\ StockView.avg_cost v = round (StockLedger.cost_per_stock l) 6
    /\ StockView.stock_value v
       = ROUND (StockLedger.qty_stock l * StockLedger.cost_per_stock l) 2.
Proof.
  intros Hnd Hv. unfold get_stock_on_hand in Hv.
  apply in_flat_map in Hv as [x [Hx Hv]].
  apply in_flat_map in Hv as [l [Hl Hv]].
  apply in_flat_map in Hv as [mo [_ Hv]].
  apply in_map_iff in Hx as [code [<- _]]. simpl in Hl.
  apply filter_In in Hl as [Hl Hid].
  destruct (MAX (map StockLedger.id (ledger_of db code))) as [k|] eqn:Ek;
    [|discriminate].
  apply Z.eqb_eq in Hid.
  apply MAX_attained in Ek as [[w [Hw Ew]] Hmax].
  assert (E : w = l).
  { apply (unique_id_row (stock_ledger db)); auto.
    - apply (ledger_of_incl db code), Hw.
    - lia. }
  subst w.
  destruct (Qgtb (Qabs (StockLedger.qty_stock l)) (1 # 100000)) eqn:Eq;
    [|contradiction].
  destruct Hv as [<- | []]. simpl.
  exists l. rewrite (ledger_of_code _ _ _ Hw).
  split.
  - apply (latest_row_is_max (stock_ledger db)); auto.
    + apply ledger_of_incl.
    + intros b Hb. rewrite Hid. apply Hmax, Hb.
  - split; [apply Qgtb_true, Eq|]. repeat split.
Qed.

Lemma distinct_complete (c : string) (codes : list string) :
  In c codes -> In c (distinct codes).
Proof.
  induction codes as [|c' codes IH]; simpl; [tauto|].
  intros [-> | H]; [left; reflexivity|].
  destruct (String.eqb c c') eqn:E.
  - left. symmetry. apply String.eqb_eq, E.
  - right. apply filter_In. split; [apply IH, H|]. rewrite E. reflexivity.
Qed.

Lemma view_row_exists (db : DB) (m : string) (l : StockLedger.row) :
  latest_row (ledger_of db m) = Some l ->
  Qabs (StockLedger.qty_stock l) > 1 # 100000 ->
  exists v,
    In v (get_stock_on_hand db)
    /\ StockView.code v = m
    /\ StockView.qty_on_hand v = round (StockLedger.qty_stock l) 4
    /\ StockView.avg_cost v = round (StockLedger.cost_per_stock l) 6.
Proof.
  intros Hlatest Hqty.
  assert (Hl : In l (ledger_of db m)).
  { unfold latest_row in Hlatest.
    apply latest_row_from in Hlatest as [E | [l' [E Hin]]]; [discriminate|].
    injection E as <-. exact Hin. }
  pose proof (ledger_of_code _ _ _ Hl) as Hcode.
  pose proof (ledger_of_incl _ _ _ Hl) as Hledger.
  assert (Hmax : MAX (map StockLedger.id (ledger_of db m))
                 = Some (StockLedger.id l)).
  { destruct (MAX (map StockLedger.id (ledger_of db m))) as [k|] eqn:Ek.
    - f_equal. apply MAX_attained in Ek as [[w [Hw Ew]] Hk].
      unfold latest_row in Hlatest.
      apply latest_row_bounds in Hlatest as [_ Hb].
      specialize (Hb w Hw). specialize (Hk l Hl). lia.
    - destruct (ledger_of db m); [contradiction | discriminate]. }
  set (ms := filter (fun mr => String.eqb (Materials.material_code mr)
                                          (StockLedger.material_code l))
                    (materials db)).
  set (joined := match ms with [] => [None] | _ => map Some ms end).
  assert (Hjoined : exists mo, In mo joined).
  { unfold joined. destruct ms as [|m0 ms']; eexists; left; reflexivity. }
  destruct Hjoined as [mo Hmo].
  exists (StockView.mk
            (StockLedger.material_code l)
            (COALESCE (option_map Materials.material_name mo)
                      (StockLedger.material_code l))
            (COALESCE (option_map Materials.stock_uom mo) (StockLedger.uom l))
            (round (StockLedger.qty_stock l) 4)
            (round (StockLedger.cost_per_stock l) 6)
            (ROUND (StockLedger.qty_stock l * StockLedger.cost_per_stock l) 2)).
  split; [|repeat split; exact Hcode].
  unfold get_stock_on_hand. apply in_flat_map.
  exists (m, MAX (map StockLedger.id (ledger_of db m))). split.
  - apply in_map_iff. exists m. split; [reflexivity|].
    apply distinct_complete, in_map_iff. exists l. split; assumption.
  - apply in_flat_map. exists l. split.
    + apply filter_In. split; [exact Hledger|]. simpl. rewrite Hmax.
      apply Z.eqb_refl.
    + apply in_flat_map. exists mo. split; [exact Hmo|].
      apply Qgtb_true in Hqty. rewrite Hqty. left. reflexivity.
Qed.

(** X12.  With unique ledger keys, [get_stock_on_hand] lists a material exactly
    when the quantity of its latest ledger row is above 1e-5 in absolute
    value, and then with the quantity and cost of that row, rounded to 4
    and 6 decimals: it reads no other row. *)
Theorem view_shows_latest_row (db : DB) (m : string) :
  NoDup (map StockLedger.id (stock_ledger db)) ->
  (forall v,
     In v (get_stock_on_hand db) -> StockView.code v = m ->
     exists l,
       latest_row (ledger_of db m) = Some l
       /\ Qabs (StockLedger.qty_stock l) > 1 # 100000
       /\ StockView.qty_on_hand v = round (StockLedger.qty_stock l) 4
       /\ StockView.avg_cost v = round (StockLedger.cost_per_stock l) 6)
  /\ (forall l,
        latest_row (ledger_of db m) = Some l ->
        Qabs (StockLedger.qty_stock l) > 1 # 100000 ->
        exists v, In v (get_stock_on_hand db) /\ StockView.code v = m).
Proof.
  intros Hnd. split.
  - intros v Hv <-.
    destruct (view_row_source db v Hnd Hv) as [l [H1 [H2 [H3 [H4 _]]]]].
    exists l. auto.
  - intros l H1 H2.
    destruct (view_row_exists db m l H1 H2) as [v [Hv [Hc _]]].
    exists v. auto.
Qed.

Lemma view_shows_latest_row_witness :
  let db := adjust_all
              [mkAdjustment "d1" "PIG-RED" 100 "kg" 5 "" "MANUAL" "";
               mkAdjustment "d2" "PIG-RED" (-40) "kg" 0 "" "MANUAL" ""]
              catalogue in
  exists v, In v (get_stock_on_hand db) /\ StockView.code v = "PIG-RED".
Proof.
  intros db.
  assert (Hnd : NoDup (map StockLedger.id (stock_ledger db))).
  { repeat constructor; simpl; intuition discriminate. }
  destruct (view_shows_latest_row db "PIG-RED" Hnd) as [_ Hex].
  eapply Hex; [reflexivity | vm_compute; reflexivity].
Defined.

Lemma adjust_all_extends (adjs : list adjustment) (db : DB) :
  extends (stock_ledger db) (stock_ledger (adjust_all adjs db)).
Proof.
  revert db. induction adjs as [|a adjs IH]; intros db; simpl.
  - apply extends_same.
  - eapply extends_trans; [apply adjust_extends | apply IH].
Qed.

Lemma adjust_all_tracks_balance (adjs : list adjustment) (db : DB) :
  (forall m, prev_qty db m == moved_quantity db m) ->
  forall m,
    prev_qty (adjust_all adjs db) m == moved_quantity (adjust_all adjs db) m.
Proof.
  revert db. induction adjs as [|a adjs IH]; intros db H0 m; [apply H0|].
  simpl. apply IH. apply adjust_tracks_balance, H0.
Qed.

(** X13.  On a ledger that only [post_stock_adjustment] has written, the view
    is right: a material is listed with the sum of its movements, rounded
    to 4 decimals. *)
Theorem view_of_adjusted_ledger (adjs : list adjustment) (db0 : DB)
    (v : StockView.row) :
  stock_ledger db0 = [] ->
  let db := adjust_all adjs db0 in
  In v (get_stock_on_hand db) ->
  StockView.qty_on_hand v = round (prev_qty db (StockView.code v)) 4
  /\ prev_qty db (StockView.code v) == moved_quantity db (StockView.code v).
Proof.
  intros Hempty db Hv.
  assert (Hnd : NoDup (map StockLedger.id (stock_ledger db))).
  { apply (extends_unique_ids (stock_ledger db0)).
    - apply adjust_all_extends.
    - rewrite Hempty. constructor. }
  destruct (view_row_source db v Hnd Hv) as [l [Hl [_ [Hq _]]]].
  split.
  - unfold prev_qty. rewrite Hl. exact Hq.
  - apply adjust_all_tracks_balance. intros m.
    unfold prev_qty, moved_quantity, ledger_of. rewrite Hempty. reflexivity.
Qed.

Lemma view_of_adjusted_ledger_witness :
  let db := adjust_all
              [mkAdjustment "d1" "PIG-RED" 100 "kg" 5 "" "MANUAL" "";
               mkAdjustment "d2" "PIG-RED" (-30) "kg" 0 "" "MANUAL" ""]
              catalogue in
  exists v, In v (get_stock_on_hand db) /\ StockView.qty_on_hand v == 70.
Proof.
  intros db.
  assert (Hv : In (StockView.mk "PIG-RED" "Red pigment" "kg"
                     (round (70 # 1) 4) (round 5 6) (ROUND (70 * 5) 2))
                  (get_stock_on_hand db)) by (left; reflexivity).
  destruct (view_of_adjusted_ledger _ catalogue _ eq_refl Hv) as [Hq _].
  eexists. split; [exact Hv|]. rewrite Hq. vm_compute. reflexivity.
Defined.

(** ** The integrity check *)

Lemma rint_negative (y : Q) : (rint y <= -1)%Z <-> y < - (1 # 2).
Proof.
  unfold rint.
  pose proof (Qfloor_le y) as Hlo. pose proof (Qlt_floor y) as Hhi.
  set (f := Qfloor y) in *.
  assert (Hf1 : inject_Z (f + 1) == inject_Z f + 1).
  { rewrite inject_Z_plus. reflexivity. }
  rewrite Hf1 in Hhi.
  assert (Hcases : (f <= -2 \/ f = -1 \/ 0 <= f)%Z) by lia.
  destruct (Qltb (y - inject_Z f) (1 # 2)) eqn:E1.
  - apply Qltb_true in E1. split.
    + intros H. assert (Hq : inject_Z f <= inject_Z (-1)) by (rewrite <- Zle_Qle; exact H).
      change (inject_Z (-1)) with (- (1)) in Hq. lra.
    + intros H. destruct Hcases as [Hc | [Hc | Hc]]; [lia | lia |].
      assert (Hq : inject_Z 0 <= inject_Z f) by (rewrite <- Zle_Qle; exact Hc).
      change (inject_Z 0) with 0 in Hq. lra.
  - apply Qltb_false in E1.
    destruct (Qltb (1 # 2) (y - inject_Z f)) eqn:E2.
    + apply Qltb_true in E2. split.
      * intros H. assert (Hc : (f <= -2)%Z) by lia.
        assert (Hq : inject_Z f <= inject_Z (-2)) by (rewrite <- Zle_Qle; exact Hc).
        change (inject_Z (-2)) with (- (2)) in Hq. lra.
      * intros H. destruct Hcases as [Hc | [Hc | Hc]]; [lia | |].
        -- subst f. rewrite Hc in *. change (inject_Z (-1)) with (- (1)) in *. lra.
        -- assert (Hq : inject_Z 0 <= inject_Z f) by (rewrite <- Zle_Qle; exact Hc).
           change (inject_Z 0) with 0 in Hq. lra.
    + apply Qltb_false in E2.
      assert (Hhalf : y == inject_Z f + (1 # 2)) by lra.
      destruct (Z.even f) eqn:Ev.
      * split.
        -- intros H. destruct Hcases as [Hc | [Hc | Hc]]; [| |lia].
           ++ assert (Hq : inject_Z f <= inject_Z (-2)) by (rewrite <- Zle_Qle; exact Hc).
              change (inject_Z (-2)) with (- (2)) in Hq. lra.
           ++ rewrite Hc in Ev. discriminate Ev.
        -- intros H. destruct Hcases as [Hc | [Hc | Hc]]; [lia | lia |].
           assert (Hq : inject_Z 0 <= inject_Z f) by (rewrite <- Zle_Qle; exact Hc).
           change (inject_Z 0) with 0 in Hq. lra.
      * split.
        -- intros H. assert (Hc : (f <= -2)%Z) by lia.
           assert (Hq : inject_Z f <= inject_Z (-2)) by (rewrite <- Zle_Qle; exact Hc).
           change (inject_Z (-2)) with (- (2)) in Hq. lra.
        -- intros H. destruct Hcases as [Hc | [Hc | Hc]]; [lia | |].
           ++ rewrite Hc in Hhalf. change (inject_Z (-1)) with (- (1)) in Hhalf. lra.
           ++ assert (Hq : inject_Z 0 <= inject_Z f) by (rewrite <- Zle_Qle; exact Hc).
              change (inject_Z 0) with 0 in Hq. lra.
Qed.

Lemma round_4_flagged (x : Q) :
  round x 4 < - (1 # 100000) <-> x < - (1 # 20000).
Proof.
  unfold round. change (pow10 4) with (inject_Z 10000).
  set (k := rint (x * inject_Z 10000)).
  assert (Hk : (k <= -1)%Z <-> x < - (1 # 20000)).
  { unfold k. rewrite rint_negative.
    change (inject_Z 10000) with (10000 # 1). split; intros H; lra. }
  rewrite <- Hk.
  assert (Hdiv : inject_Z k / inject_Z 10000 == inject_Z k * (1 # 10000)).
  { unfold Qdiv. reflexivity. }
  rewrite Hdiv. split.
  - intros H. destruct (Z_le_gt_dec k (-1)) as [Hle | Hgt]; [exact Hle|].
    assert (Hq : inject_Z 0 <= inject_Z k) by (rewrite <- Zle_Qle; lia).
    change (inject_Z 0) with 0 in Hq. lra.
  - intros H.
    assert (Hq : inject_Z k <= inject_Z (-1)) by (rewrite <- Zle_Qle; exact H).
    change (inject_Z (-1)) with (- (1)) in Hq. lra.
Qed.

(** X14.  With unique ledger keys, [integrity_check_stock] flags a material
    exactly when the quantity of its latest ledger row is below -0.00005:
    every flagged material is negative, and a negative quantity down to
    -0.00005 is not flagged. *)
Theorem integrity_check_flags (db : DB) (m : string) :
  NoDup (map StockLedger.id (stock_ledger db)) ->
  (exists v, In v (integrity_check_stock db) /\ StockView.code v = m)
  <-> (exists l, latest_row (ledger_of db m) = Some l
                 /\ StockLedger.qty_stock l < - (1 # 20000)).
Proof.
  intros Hnd. unfold integrity_check_stock. split.
  - intros [v [Hv <-]]. apply filter_In in Hv as [Hv Hflag].
    destruct (view_row_source db v Hnd Hv) as [l [Hl [_ [Hq _]]]].
    exists l. split; [exact Hl|].
    apply Qltb_true in Hflag. rewrite Hq in Hflag.
    apply round_4_flagged, Hflag.
  - intros [l [Hl Hneg]].
    assert (Habs : Qabs (StockLedger.qty_stock l) > 1 # 100000).
    { rewrite Qabs_neg; lra. }
    destruct (view_row_exists db m l Hl Habs) as [v [Hv [Hc [Hq _]]]].
    exists v. split; [|exact Hc].
    apply filter_In. split; [exact Hv|].
    apply Qltb_true. rewrite Hq. apply round_4_flagged, Hneg.
Qed.

Lemma integrity_check_flags_witness :
  let db := snd (post_stock_adjustment "d1" "PIG-RED" (-3) "kg" 0 ""
                   "MANUAL" "" catalogue) in
  exists v, In v (integrity_check_stock db) /\ StockView.code v = "PIG-RED".
Proof.
  intros db.
  assert (Hnd : NoDup (map StockLedger.id (stock_ledger db))).
  { repeat constructor; simpl; intuition. }
  apply (integrity_check_flags db "PIG-RED" Hnd).
  eexists. split; [reflexivity | vm_compute; reflexivity].
Defined.

(** ** The materials master *)

Lemma upsert_row_codes (row : Materials.row) (table : list Materials.row) (c : string) :
  In c (map Materials.material_code (upsert_row row table)) ->
  c = Materials.material_code row \/ In c (map Materials.material_code table).
Proof.
  induction table as [|m table IH]; simpl.
  - intros [<- | []]. left. reflexivity.
  - destruct (String.eqb (Materials.material_code m)
                         (Materials.material_code row)) eqn:E; simpl.
    + intros [<- | H]; [left; reflexivity | right; right; exact H].
    + intros [<- | H]; [right; left; reflexivity|].
      destruct (IH H) as [H' | H']; [left | right; right]; assumption.
Qed.

Lemma upsert_row_unique (row : Materials.row) (table : list Materials.row) :
  NoDup (map Materials.material_code table) ->
  NoDup (map Materials.material_code (upsert_row row table)).
Proof.
  induction table as [|m table IH]; simpl; intros Hnd.
  - constructor; [intros [] | constructor].
  - apply NoDup_cons_iff in Hnd as [Hm Hnd].
    destruct (String.eqb (Materials.material_code m)
                         (Materials.material_code row)) eqn:E; simpl.
    + apply String.eqb_eq in E. rewrite <- E. constructor; assumption.
    + constructor; [|apply IH, Hnd].
      intros H. apply upsert_row_codes in H as [H | H]; [|contradiction].
      apply String.eqb_neq in E. contradiction.
Qed.

Lemma upsert_row_selects (row : Materials.row) (table : list Materials.row) :
  NoDup (map Materials.material_code table) ->
  filter (fun m => String.eqb (Materials.material_code m)
                              (Materials.material_code row))
         (upsert_row row table) = [row].
Proof.
  induction table as [|m table IH]; simpl; intros Hnd.
  - rewrite String.eqb_refl. reflexivity.
  - apply NoDup_cons_iff in Hnd as [Hm Hnd].
    destruct (String.eqb (Materials.material_code m)
                         (Materials.material_code row)) eqn:E; simpl.
    + rewrite String.eqb_refl. f_equal. apply filter_none.
      intros x Hx. apply String.eqb_neq. intros Ex.
      apply Hm. apply String.eqb_eq in E. rewrite E, <- Ex.
      apply in_map, Hx.
    + rewrite E. apply IH, Hnd.
Qed.

Lemma upsert_row_others (row : Materials.row) (table : list Materials.row)
    (c : string) :
  c <> Materials.material_code row ->
  filter (fun m => String.eqb (Materials.material_code m) c)
         (upsert_row row table)
  = filter (fun m => String.eqb (Materials.material_code m) c) table.
Proof.
  intros Hc. induction table as [|m table IH]; simpl.
  - destruct (String.eqb_spec (Materials.material_code row) c);
      [exfalso; auto | reflexivity].
  - destruct (String.eqb (Materials.material_code m)
                         (Materials.material_code row)) eqn:E; simpl.
    + apply String.eqb_eq in E. rewrite E.
      destruct (String.eqb_spec (Materials.material_code row) c);
        [exfalso; auto | reflexivity].
    + rewrite IH. reflexivity.
Qed.

(** X15.  [upsert_material] keeps the codes of the table unique; afterwards the
    table has one row under the code, the row given, the rows under other
    codes are what they were, and no other table has changed. *)
Theorem upsert_material_sets_row (row : Materials.row) (db : DB) :
  NoDup (map Materials.material_code (materials db)) ->
  let db' := upsert_material row db in
  NoDup (map Materials.material_code (materials db'))
  /\ filter (fun m => String.eqb (Materials.material_code m)
                                 (Materials.material_code row))
            (materials db') = [row]
  /\ (forall c, c <> Materials.material_code row ->
        filter (fun m => String.eqb (Materials.material_code m) c)
               (materials db')
        = filter (fun m => String.eqb (Materials.material_code m) c)
                 (materials db))
  /\ stock_ledger db' = stock_ledger db
  /\ formulas db' = formulas db
  /\ stocktake db' = stocktake db.
Proof.
  intros Hnd db'. unfold db', upsert_material. simpl.
  split; [apply upsert_row_unique, Hnd|].
  split; [apply upsert_row_selects, Hnd|].
  split; [intros c Hc; apply upsert_row_others, Hc|].
  repeat split.
Qed.

Lemma upsert_material_sets_row_witness :
  filter (fun m => String.eqb (Materials.material_code m) "PIG-RED")
         (materials (upsert_material (sample_material "PIG-RED" "Crimson")
                       catalogue))
  = [sample_material "PIG-RED" "Crimson"].
Proof.
  assert (Hnd : NoDup (map Materials.material_code (materials catalogue))).
  { repeat constructor. intros []. }
  apply (upsert_material_sets_row (sample_material "PIG-RED" "Crimson")
           catalogue Hnd).
Defined.

Lemma upsert_row_last_wins (r1 r2 : Materials.row)
    (table : list Materials.row) :
  Materials.material_code r1 = Materials.material_code r2 ->
  upsert_row r2 (upsert_row r1 table) = upsert_row r2 table.
Proof.
  intros E. induction table as [|m table IH].
  - simpl. rewrite E, String.eqb_refl. reflexivity.
  - cbn [upsert_row]. rewrite E.
    destruct (String.eqb (Materials.material_code m)
                         (Materials.material_code r2)) eqn:Em.
    + cbn [upsert_row]. rewrite E, String.eqb_refl. reflexivity.
    + cbn [upsert_row]. rewrite Em. f_equal. exact IH.
Qed.

(** X16.  Of two upserts under one code the later one wins; in particular an
    upsert done twice is an upsert done once. *)
Theorem upsert_material_last_wins (r1 r2 : Materials.row) (db : DB) :
  Materials.material_code r1 = Materials.material_code r2 ->
  upsert_material r2 (upsert_material r1 db) = upsert_material r2 db.
Proof.
  intros E. unfold upsert_material, set_materials. simpl. f_equal.
  apply upsert_row_last_wins, E.
Qed.

Lemma upsert_material_last_wins_witness :
  upsert_material (sample_material "PIG-BLUE" "Cobalt")
    (upsert_material (sample_material "PIG-BLUE" "Blue pigment") catalogue)
  = upsert_material (sample_material "PIG-BLUE" "Cobalt") catalogue.
Proof.
  apply upsert_material_last_wins. reflexivity.
Defined.

Lemma delete_upsert_row (row : Materials.row) (table : list Materials.row) :
  ~ In (Materials.material_code row) (map Materials.material_code table) ->
  filter (fun m => negb (String.eqb (Materials.material_code m)
                                    (Materials.material_code row)))
         (upsert_row row table) = table.
Proof.
  induction table as [|m table IH]; intros Hnew.
  - simpl. rewrite String.eqb_refl. reflexivity.
  - cbn [upsert_row].
    destruct (String.eqb (Materials.material_code m)
                         (Materials.material_code row)) eqn:E.
    + exfalso. apply Hnew. left. apply String.eqb_eq, E.
    + cbn [filter]. rewrite E. simpl. f_equal. apply IH.
      intros H. apply Hnew. right. exact H.
Qed.

(** X17.  Deleting a material that was just added under a new code gives the
    database back; deleting a code that is not in the table changes
    nothing and raises nothing. *)
Theorem upsert_then_delete_material (row : Materials.row) (db : DB) :
  ~ In (Materials.material_code row)
       (map Materials.material_code (materials db)) ->
  delete_material (Materials.material_code row) (upsert_material row db) = db
  /\ delete_material (Materials.material_code row) db = db.
Proof.
  intros Hnew.
  assert (Hkeep : filter (fun m => negb (String.eqb (Materials.material_code m)
                                           (Materials.material_code row)))
                         (materials db) = materials db).
  { apply filter_all. intros x Hx. apply negb_true_iff, String.eqb_neq.
    intros E. apply Hnew. rewrite <- E. apply in_map, Hx. }
  split.
  - unfold delete_material, upsert_material, set_materials. simpl.
    rewrite (delete_upsert_row row (materials db) Hnew).
    destruct db; reflexivity.
  - unfold delete_material, set_materials. rewrite Hkeep.
    destruct db; reflexivity.
Qed.

Lemma upsert_then_delete_material_witness :
  delete_material "PIG-BLUE"
    (upsert_material (sample_material "PIG-BLUE" "Blue pigment") catalogue)
  = catalogue.
Proof.
  apply (upsert_then_delete_material (sample_material "PIG-BLUE" "Blue pigment")
           catalogue).
  simpl. intros [H | []]. discriminate H.
Defined.

(** X18.  The first definition of [delete_material] deletes exactly when the
    material has no ledger row and no formula line, and then does what
    the second definition does; otherwise it raises and changes
    nothing. *)
Theorem guarded_delete_material_outcome (m : string) (db : DB) :
  let refs := filter (fun f => String.eqb (Formulas.material_code f) m)
                     (formulas db) in
  (ledger_of db m = [] /\ refs = []
   /\ Guarded.delete_material m db = (Ok tt, delete_material m db))
  \/ ((ledger_of db m <> [] \/ refs <> [])
      /\ exists msg,
           Guarded.delete_material m db = (Raise (ValueError msg), db)).
Proof.
  intros refs. unfold Guarded.delete_material. fold refs.
  destruct (ledger_of db m) as [|r rows].
  - destruct refs as [|f fs].
    + left. repeat split.
    + right. split; [right; discriminate|]. eexists. reflexivity.
  - right. split; [left; discriminate|]. eexists. reflexivity.
Qed.

(** ** Formulas *)

Lemma formula_pair_selected (p m : string) (rows : list Formulas.row) :
  In (p, m) (map (fun f => (Formulas.product_code f, Formulas.material_code f))
                 rows)
  <-> filter (fun f => String.eqb (Formulas.product_code f) p
                       && String.eqb (Formulas.material_code f) m) rows
      <> [].
Proof.
  induction rows as [|f rows IH]; simpl.
  - split; [intros [] | intros H; apply H; reflexivity].
  - destruct (String.eqb_spec (Formulas.product_code f) p) as [Ep | Ep];
      destruct (String.eqb_spec (Formulas.material_code f) m) as [Em | Em];
      simpl.
    + split; [discriminate|]. intros _. left. rewrite Ep, Em. reflexivity.
    + rewrite <- IH. split; [|auto]. intros [E | H]; [|exact H].
      injection E as _ E. contradiction.
    + rewrite <- IH. split; [|auto]. intros [E | H]; [|exact H].
      injection E as E _. contradiction.
    + rewrite <- IH. split; [|auto]. intros [E | H]; [|exact H].
      injection E as E _. contradiction.
Qed.

Lemma existsb_eqb_In (c : string) (codes : list string) :
  existsb (String.eqb c) codes = true <-> In c codes.
Proof.
  rewrite existsb_exists. split.
  - intros [x [Hx E]]. apply String.eqb_eq in E. subst x. exact Hx.
  - intros H. exists c. split; [exact H | apply String.eqb_refl].
Qed.

Lemma insert_formula_outcome pcs mcs p m q u (s : FormulaStore) :
  (In p pcs /\ In m mcs
   /\ exists f, insert_formula pcs mcs p m q u s
                = (Ok tt, mkFormulaStore (formula_rows s ++ [f]) (Formulas.id f))
                /\ Formulas.product_code f = p
                /\ formula_line f = (m, q, u))
  \/ ((~ In p pcs \/ ~ In m mcs)
      /\ insert_formula pcs mcs p m q u s = (Raise foreign_key_failed, s)).
Proof.
  unfold insert_formula.
  destruct (existsb (String.eqb p) pcs) eqn:Ep;
    destruct (existsb (String.eqb m) mcs) eqn:Em; cbn [andb].
  - left. apply existsb_eqb_In in Ep, Em. split; [exact Ep|].
    split; [exact Em|].
    exists (Formulas.mk
              (1 + Z.max (fold_right Z.max 0 (map Formulas.id (formula_rows s)))
                         (formula_seq s))%Z p m q u).
    split; [reflexivity|]. split; reflexivity.
  - right. split; [|reflexivity]. right. intros H.
    apply existsb_eqb_In in H. congruence.
  - right. split; [|reflexivity]. left. intros H.
    apply existsb_eqb_In in H. congruence.
  - right. split; [|reflexivity]. left. intros H.
    apply existsb_eqb_In in H. congruence.
Qed.

(** X19.  [add_formula_line] keeps the (product, material) pairs of the table
    unique.  For a pair that is there it raises ValueError; for a new pair
    whose product or material is not in its table the insert fails the
    foreign key; both change nothing.  For a new pair of a known product
    and a known material it appends the line. *)
Theorem add_formula_line_keeps_pairs_unique pcs mcs p m q u (s : FormulaStore) :
  NoDup (formula_pairs s) ->
  let out := add_formula_line pcs mcs p m q u s in
  NoDup (formula_pairs (snd out))
  /\ ((In (p, m) (formula_pairs s)
       /\ out = (Raise (ValueError "Material already exists in this formula"), s))
      \/ (~ In (p, m) (formula_pairs s)
          /\ (~ In p pcs \/ ~ In m mcs)
          /\ out = (Raise (IntegrityError "FOREIGN KEY constraint failed"), s))
      \/ (~ In (p, m) (formula_pairs s)
          /\ In p pcs /\ In m mcs
          /\ fst out = Ok tt
          /\ exists f,
               formula_rows (snd out) = (formula_rows s ++ [f])%list
               /\ Formulas.product_code f = p
               /\ formula_line f = (m, q, u))).
Proof.
  intros Hnd out. unfold out, add_formula_line.
  destruct (filter _ (formula_rows s)) as [|f0 fs] eqn:Esel.
  - assert (Hnew : ~ In (p, m) (formula_pairs s)).
    { unfold formula_pairs. rewrite formula_pair_selected, Esel. tauto. }
    cbn [List.length Z.of_nat Z.ltb Z.compare].
    destruct (insert_formula_outcome pcs mcs p m q u s)
      as [[Hp [Hm [f [-> [Hfp Hfl]]]]] | [Hno ->]]; cbn [fst snd].
    + split.
      * unfold formula_pairs. cbn [formula_rows]. rewrite map_app.
        apply NoDup_app.
        -- exact Hnd.
        -- simpl. constructor; [intros [] | constructor].
        -- intros x Hx [E | []]. subst x. apply Hnew.
           injection Hfl as Em _ _. rewrite Hfp, Em in Hx. exact Hx.
      * right. right. split; [exact Hnew|]. split; [exact Hp|].
        split; [exact Hm|]. split; [reflexivity|].
        exists f. cbn [formula_rows]. auto.
    + split; [exact Hnd|]. right. left. auto.
  - assert (Hold : In (p, m) (formula_pairs s)).
    { unfold formula_pairs. rewrite formula_pair_selected, Esel. discriminate. }
    replace (0 <? Z.of_nat (List.length (f0 :: fs)))%Z with true
      by (symmetry; apply Z.ltb_lt; cbn [List.length]; lia).
    cbn [fst snd]. split; [exact Hnd|]. left. split; [exact Hold | reflexivity].
Qed.

Lemma add_formula_line_keeps_pairs_unique_witness :
  let s := snd (add_formula_line ["PAINT-1"] ["PIG-RED"] "PAINT-1" "PIG-RED"
                  2 "kg" (mkFormulaStore [] 0)) in
  add_formula_line ["PAINT-1"] ["PIG-RED"] "PAINT-1" "PIG-RED" 3 "kg" s
  = (Raise (ValueError "Material already exists in this formula"), s).
Proof.
  intros s.
  assert (Hnd : NoDup (formula_pairs s)).
  { repeat constructor. intros []. }
  destruct (add_formula_line_keeps_pairs_unique ["PAINT-1"] ["PIG-RED"]
              "PAINT-1" "PIG-RED" 3 "kg" s Hnd)
    as [_ [[_ H] | [[Hnew _] | [Hnew _]]]]; [exact H | |];
    exfalso; apply Hnew; left; reflexivity.
Defined.

Lemma insert_formulas_outcome pcs mcs (p : string) (rows : list formula_input)
    (st : FormulaStore) :
  (Forall (formula_accepted pcs mcs p) rows
   /\ exists added s',
        insert_formulas pcs mcs p rows st = (Ok tt, s')
        /\ formula_rows s' = (formula_rows st ++ added)%list
        /\ map formula_line added = map input_line rows
        /\ Forall (fun f => Formulas.product_code f = p) added)
  \/ (~ Forall (formula_accepted pcs mcs p) rows
      /\ exists s', insert_formulas pcs mcs p rows st
                    = (Raise foreign_key_failed, s')).
Proof.
  revert st. induction rows as [|r rows IH]; intros st; cbn [insert_formulas].
  - left. split; [constructor|]. exists [], st. rewrite app_nil_r.
    repeat split. constructor.
  - destruct (insert_formula_outcome pcs mcs p (i_material_code r) (i_qty r)
                (i_uom r) st)
      as [[Hp [Hm [f [-> [Hfp Hfl]]]]] | [Hno ->]].
    + destruct (IH (mkFormulaStore (formula_rows st ++ [f]) (Formulas.id f)))
        as [[Hall [added [s' [E [Hrows [Hl Hprod]]]]]] | [Hnot [s' E]]].
      * left. split; [constructor; [split; assumption | exact Hall]|].
        exists (f :: added), s'. split; [exact E|]. split; [|split].
        -- rewrite Hrows. cbn [formula_rows]. rewrite <- app_assoc.
           reflexivity.
        -- cbn [map]. rewrite Hl, Hfl. reflexivity.
        -- constructor; [exact Hfp | exact Hprod].
      * right. split.
        -- intros H. apply Hnot. inversion H. assumption.
        -- exists s'. exact E.
    + right. split.
      * intros H. inversion H as [|x l [Hp Hm] Hrest]. tauto.
      * exists st. reflexivity.
Qed.

Lemma filter_filter_negb {A : Type} (f : A -> bool) (l : list A) :
  filter f (filter (fun x => negb (f x)) l) = []
  /\ filter (fun x => negb (f x)) (filter (fun x => negb (f x)) l)
     = filter (fun x => negb (f x)) l.
Proof.
  induction l as [|x l [IH1 IH2]]; simpl; [split; reflexivity|].
  destruct (f x) eqn:E; simpl; [split; assumption|].
  rewrite E. simpl. split; [exact IH1 | f_equal; exact IH2].
Qed.

(** X20.  [set_formula] is all or nothing.  When the product and the
    material of every line given are in their tables it replaces the
    formula of the product: afterwards the lines of the product are the
    lines given, in the order given (also a material given twice), and the
    lines of other products are what they were.  Otherwise an insert fails
    the foreign key and the table is what it was, the old lines of the
    product included. *)
Theorem set_formula_replaces pcs mcs (p : string) (rows : list formula_input)
    (s : FormulaStore) :
  (Forall (formula_accepted pcs mcs p) rows
   /\ exists s',
        set_formula pcs mcs p rows s = (Ok tt, s')
        /\ map formula_line
               (filter (fun f => String.eqb (Formulas.product_code f) p)
                       (formula_rows s'))
           = map input_line rows
        /\ filter (fun f => negb (String.eqb (Formulas.product_code f) p))
                  (formula_rows s')
           = filter (fun f => negb (String.eqb (Formulas.product_code f) p))
                    (formula_rows s))
  \/ (~ Forall (formula_accepted pcs mcs p) rows
      /\ set_formula pcs mcs p rows s
         = (Raise (IntegrityError "FOREIGN KEY constraint failed"), s)).
Proof.
  unfold set_formula.
  destruct (insert_formulas_outcome pcs mcs p rows
              (mkFormulaStore
                 (filter (fun f => negb (String.eqb (Formulas.product_code f) p))
                         (formula_rows s))
                 (formula_seq s)))
    as [[Hall [added [s' [-> [E [Hl Hp]]]]]] | [Hnot [s' ->]]].
  - left. split; [exact Hall|]. exists s'. split; [reflexivity|].
    rewrite E. cbn [formula_rows]. rewrite !filter_app.
    destruct (filter_filter_negb
                (fun f => String.eqb (Formulas.product_code f) p)
                (formula_rows s)) as [H1 H2].
    rewrite H1, H2. simpl.
    assert (Hin : filter (fun f => String.eqb (Formulas.product_code f) p) added
                  = added).
    { apply filter_all. intros x Hx. rewrite Forall_forall in Hp.
      apply String.eqb_eq, Hp, Hx. }
    assert (Hout : filter (fun f => negb (String.eqb (Formulas.product_code f) p))
                          added = []).
    { apply filter_none. intros x Hx. rewrite Forall_forall in Hp.
      apply negb_false_iff, String.eqb_eq, Hp, Hx. }
    rewrite Hin, Hout, app_nil_r. split; [exact Hl | reflexivity].
  - right. split; [exact Hnot | reflexivity].
Qed.

(** X21.  With unique keys, [delete_formula_line] takes out the one line under
    the key and leaves every other line; under a key that is not in the
    table it changes nothing. *)
Theorem delete_formula_line_removes_line (s : FormulaStore) (k : Z) :
  NoDup (map Formulas.id (formula_rows s)) ->
  let s' := delete_formula_line k s in
  (forall g, In g (formula_rows s')
             <-> In g (formula_rows s) /\ Formulas.id g <> k)
  /\ (List.length (formula_rows s')
      = if existsb (fun f => (Formulas.id f =? k)%Z) (formula_rows s)
        then pred (List.length (formula_rows s))
        else List.length (formula_rows s)).
Proof.
  intros Hnd s'. unfold s', delete_formula_line. simpl. split.
  - intros g. rewrite filter_In, negb_true_iff, Z.eqb_neq. tauto.
  - induction (formula_rows s) as [|f rows IH]; simpl; [reflexivity|].
    simpl in Hnd. apply NoDup_cons_iff in Hnd as [Hf Hnd].
    destruct (Z.eqb_spec (Formulas.id f) k) as [E | E]; simpl.
    + f_equal. apply filter_all. intros x Hx.
      apply negb_true_iff, Z.eqb_neq. intros Ex. apply Hf.
      rewrite E, <- Ex. apply in_map, Hx.
    + rewrite (IH Hnd).
      destruct (existsb (fun f0 => (Formulas.id f0 =? k)%Z) rows) eqn:Ex;
        [|reflexivity].
      apply existsb_exists in Ex as [x [Hx _]].
      destruct rows; [contradiction | reflexivity].
Qed.

Lemma delete_formula_line_removes_line_witness :
  let s := snd (set_formula ["PAINT-1"] ["PIG-RED"; "SOLV-X"] "PAINT-1"
                  [mkFormulaInput "PIG-RED" 2 "kg"; mkFormulaInput "SOLV-X" 5 "L"]
                  (mkFormulaStore [] 0)) in
  List.length (formula_rows (delete_formula_line 1 s)) = 1%nat.
Proof.
  intros s.
  assert (Hnd : NoDup (map Formulas.id (formula_rows s))).
  { repeat constructor; simpl; intuition discriminate. }
  destruct (delete_formula_line_removes_line s 1 Hnd) as [_ H].
  rewrite H. reflexivity.
Defined.

(** ** Batch cost *)

Lemma fold_left_sum {A : Type} (g : A -> Q) (l : list A) (a : Q) :
  fold_left (fun total x => total + g x) l a == a + sumQ (map g l).
Proof.
  revert a. induction l as [|x l IH]; intros a; simpl.
  - ring.
  - rewrite IH. ring.
Qed.

Lemma calculate_batch_cost_sum (p : string) (b : Q) (db : DB) :
  calculate_batch_cost p b db
  == sumQ (map (fun row => Formulas.qty row * b
                           * average_cost db (Formulas.material_code row))
               (filter (fun f => String.eqb (Formulas.product_code f) p)
                       (formulas db))).
Proof.
  unfold calculate_batch_cost, average_cost.
  rewrite (fold_left_sum
             (fun row => Formulas.qty row * b
                         * snd (_current_stock db (Formulas.material_code row)))).
  ring.
Qed.

Lemma sumQ_scale {A : Type} (g : A -> Q) (k : Q) (l : list A) :
  sumQ (map (fun x => k * g x) l) == k * sumQ (map g l).
Proof.
  induction l as [|x l IH]; simpl; [ring|]. rewrite IH. ring.
Qed.

Lemma sumQ_ext {A : Type} (g h : A -> Q) (l : list A) :
  (forall x, In x l -> g x == h x) -> sumQ (map g l) == sumQ (map h l).
Proof.
  induction l as [|x l IH]; simpl; intros H; [reflexivity|].
  rewrite (H x (or_introl eq_refl)), IH; [reflexivity|].
  intros y Hy. apply H. right. exact Hy.
Qed.

(** X22.  The batch cost is proportional to the batch size: k times the batch
    costs k times as much, at the average costs of the moment. *)
Theorem calculate_batch_cost_scales (p : string) (k b : Q) (db : DB) :
  calculate_batch_cost p (k * b) db == k * calculate_batch_cost p b db.
Proof.
  rewrite !calculate_batch_cost_sum, <- sumQ_scale.
  apply sumQ_ext. intros x _. ring.
Qed.

(** ** The calls that read the clock *)

(** X27.  [post_stock], [receive_purchase] and [post_stocktake] raise
    AttributeError on every call and write nothing: they read the clock
    with [datetime.now()], and the name [datetime] is the module.
    [issue_stock] raises too: ValueError when more is asked than is on
    hand, AttributeError otherwise. *)
Theorem clock_functions_always_raise :
  let no_now := AttributeError "module 'datetime' has no attribute 'now'" in
  (forall now m q uom c rt rn note db,
      post_stock now m q uom c rt rn note db = (Raise no_now, db))
  /\ (forall now m q tc rn db,
         receive_purchase now m q tc rn db = (Raise no_now, db))
  /\ (forall now m q rt rn db,
         issue_stock now m q rt rn db
         = (Raise (if Qgtb q (on_hand db m)
                   then ValueError "Insufficient stock" else no_now), db))
  /\ (forall now now_post m x note db,
         post_stocktake now now_post m x note db = (Raise no_now, db)).
Proof.
  intros no_now. split; [|split; [|split]]; intros.
  - reflexivity.
  - reflexivity.
  - unfold issue_stock, on_hand.
    destruct (_current_stock db m) as [cur avg]. cbn [fst].
    destruct (Qgtb q cur); reflexivity.
  - unfold post_stocktake. destruct (_current_stock db m) as [sys avg].
    reflexivity.
Qed.

Lemma apply_operation_clock (o : operation) (db : DB) :
  changes_database o = false -> apply_operation o db = db.
Proof.
  destruct o; cbn [changes_database apply_operation]; try discriminate;
    intros _.
  - unfold post. apply post_stock_unchanged.
  - unfold receive_purchase. apply post_stock_unchanged.
  - apply issue_stock_unchanged.
  - apply post_stocktake_unchanged.
Qed.

(** X28.  Only manual adjustments and the maintenance of the materials table
    change the database: a sequence of calls leaves the database that the
    adjustments, upserts and deletes in it leave on their own. *)
Theorem only_adjustments_write (ops : list operation) (db : DB) :
  apply_all ops db = apply_all (filter changes_database ops) db.
Proof.
  unfold apply_all. revert db. induction ops as [|o ops IH]; intros db;
    [reflexivity|].
  cbn [filter fold_left]. destruct (changes_database o) eqn:E.
  - cbn [fold_left]. apply IH.
  - rewrite (apply_operation_clock o db E). apply IH.
Qed.
